(** * The CMDB core of [app.py]: configuration items, relationships and the
    operations that keep the graph consistent.

    The persistent store is the SQLite database behind SQLAlchemy.  A table is
    modelled as the list of its rows in rowid order, a request handler as a
    function from the store (and the request) to the new store and the reply.
    A handler that rolls back returns the store it was given. *)

From Stdlib Require Import List String Ascii ZArith NArith Lia Bool.
From Stdlib Require Import Sorted Permutation.
Import ListNotations.

Open Scope string_scope.
Open Scope list_scope.
Open Scope Z_scope.

(** ** Models (rows of the two tables) *)

(** [ConfigurationItem]: the primary key [id] is [ci_id] here; the three
    [nullable=False] columns hold strings, the other text columns may be NULL.
    [last_updated] is the UTC clock reading of the statement that wrote the
    row. *)
Record ConfigurationItem : Type := mkCI {
  ci_id : Z;
  ci_name : string;
  ci_type : string;
  status : string;
  owner : option string;
  ip_location : option string;
  description : option string;
  last_updated : Z
}.

(** [Relationship]: the primary key [id] is [rel_id] here. *)
Record Relationship : Type := mkRel {
  rel_id : Z;
  source_ci_id : Z;
  target_ci_id : Z;
  relationship_type : string
}.

Record DB : Type := mkDB {
  cis : list ConfigurationItem;
  rels : list Relationship
}.

Definition empty_db : DB := mkDB [] [].

(** ** Strings as SQLite and Python treat them *)

Definition opt_eqb (a b : option string) : bool :=
  match a, b with
  | Some x, Some y => String.eqb x y
  | None, None => true
  | _, _ => false
  end.

(** Python truthiness of a value that is a string or [None]. *)
Definition truthy (v : option string) : bool :=
  match v with
  | Some s => negb (String.eqb s "")
  | None => false
  end.

(** Lower-casing of one character: only [A]..[Z] move.  For the strings
    compared against ['source'], ['target'] and ['all'], and for SQLite's
    [lower()], nothing outside that range matters. *)
Definition lower_ascii (c : ascii) : ascii :=
  let n := N_of_ascii c in
  if (N.leb 65 n && N.leb n 90)%bool then ascii_of_N (n + 32) else c.

Fixpoint lower (s : string) : string :=
  match s with
  | EmptyString => EmptyString
  | String c s' => String (lower_ascii c) (lower s')
  end.


(** SQLite's [LIKE]: [%] matches any run of characters, [_] exactly one, and
    any other pattern character matches itself up to letter case.  A
    character is one [ascii] here. *)
Fixpoint like (pattern text : string) {struct pattern} : bool :=
  match pattern with
  | EmptyString =>
      match text with EmptyString => true | String _ _ => false end
  | String p pattern' =>
      if Ascii.eqb p "%" then
        (fix skip (t : string) : bool :=
           (like pattern' t ||
            match t with
            | EmptyString => false
            | String _ t' => skip t'
            end)%bool) text
      else
        match text with
        | EmptyString => false
        | String c text' =>
            ((Ascii.eqb p "_" || Ascii.eqb (lower_ascii p) (lower_ascii c))
             && like pattern' text')%bool
        end
  end.

(** [column.ilike(pattern)], rendered for SQLite as
    [lower(column) LIKE lower(pattern)]. *)
Definition ilike (column pattern : string) : bool :=
  like (lower pattern) (lower column).

(** The f-string ["%{s}%"]. *)
Definition percent_wrap (s : string) : string :=
  String "%" (String.append s "%").

(** ** The storage layer: what a flush and commit does to the tables *)

(** The constraint whose violation makes the commit raise [IntegrityError]. *)
Inductive integrity : Type :=
| NotNull
| Unique
| ck_not_self_referential.

(** The keys SQLite can bind as an INTEGER, the signed 64-bit integers.  The
    key of a stored row is always one of them. *)
Definition sqlite_int (i : Z) : bool :=
  (Z.leb (- (2 ^ 63)) i && Z.ltb i (2 ^ 63))%bool.

(** [db.session.get(Model, pk)] as far as it returns: the row with that key,
    or [None].  With a key that is not a [sqlite_int] the driver raises
    OverflowError instead of returning [None]; [raised] below tells, and every
    handler that looks a key up consults it. *)
Definition session_get_ci (d : DB) (i : Z) : option ConfigurationItem :=
  find (fun c => Z.eqb (ci_id c) i) (cis d).

Definition session_get_rel (d : DB) (i : Z) : option Relationship :=
  find (fun r => Z.eqb (rel_id r) i) (rels d).

(** Whether [db.session.get] raised OverflowError rather than returned [row]:
    no row has the key, and the key is one SQLite cannot bind. *)
Definition raised {A : Type} (row : option A) (key : Z) : bool :=
  match row with
  | Some _ => false
  | None => negb (sqlite_int key)
  end.

(** [ConfigurationItem.query.filter_by(ci_name=n).first()]; a [None] name
    compiles to [IS NULL], which no row satisfies. *)
Definition first_by_name (d : DB) (n : option string) : option ConfigurationItem :=
  match n with
  | Some s => find (fun c => String.eqb (ci_name c) s) (cis d)
  | None => None
  end.

(** The rowid SQLite gives to a new row of an [INTEGER PRIMARY KEY] table:
    one more than the largest in use, 1 in an empty table. *)
Definition next_rowid (ids : list Z) : Z := fold_right Z.max 0 ids + 1.

(** The column attributes of a pending [ConfigurationItem] object; any of
    them may have been set to [None] by the handler. *)
Record ci_attrs : Type := mkAttrs {
  a_ci_name : option string;
  a_ci_type : option string;
  a_status : option string;
  a_owner : option string;
  a_ip_location : option string;
  a_description : option string
}.

Definition attrs_of (c : ConfigurationItem) : ci_attrs :=
  mkAttrs (Some (ci_name c)) (Some (ci_type c)) (Some (status c))
          (owner c) (ip_location c) (description c).

Definition attrs_eqb (a b : ci_attrs) : bool :=
  (opt_eqb (a_ci_name a) (a_ci_name b) && opt_eqb (a_ci_type a) (a_ci_type b)
   && opt_eqb (a_status a) (a_status b) && opt_eqb (a_owner a) (a_owner b)
   && opt_eqb (a_ip_location a) (a_ip_location b)
   && opt_eqb (a_description a) (a_description b))%bool.

(** [db.session.add(ConfigurationItem(...)); db.session.commit()]: the INSERT
    is refused on a NULL in a [nullable=False] column or on a name already in
    the table ([unique=True]); [last_updated] takes its default, the clock. *)
Definition insert_ci (d : DB) (now : Z) (a : ci_attrs)
  : integrity + (DB * ConfigurationItem) :=
  match a_ci_name a, a_ci_type a, a_status a with
  | Some n, Some t, Some s =>
      if existsb (fun c => String.eqb (ci_name c) n) (cis d) then inl Unique
      else
        let row := mkCI (next_rowid (map ci_id (cis d))) n t s
                        (a_owner a) (a_ip_location a) (a_description a) now in
        inr (mkDB (cis d ++ [row]) (rels d), row)
  | _, _, _ => inl NotNull
  end.

(** The UPDATE of one row: the row with the key of [row] becomes [row]. *)
Definition replace_row (row c : ConfigurationItem) : ConfigurationItem :=
  if Z.eqb (ci_id c) (ci_id row) then row else c.

(** [db.session.commit()] with a loaded object [old] whose attributes are now
    [a]: no UPDATE is emitted when nothing differs; otherwise the row is
    rewritten, [last_updated] takes its [onupdate] value, and the same two
    constraints are checked against the other rows. *)
Definition update_ci_row (d : DB) (now : Z) (old : ConfigurationItem) (a : ci_attrs)
  : integrity + (DB * ConfigurationItem) :=
  if attrs_eqb a (attrs_of old) then inr (d, old)
  else
    match a_ci_name a, a_ci_type a, a_status a with
    | Some n, Some t, Some s =>
        if existsb (fun c => negb (Z.eqb (ci_id c) (ci_id old))
                             && String.eqb (ci_name c) n)%bool (cis d)
        then inl Unique
        else
          let row := mkCI (ci_id old) n t s
                          (a_owner a) (a_ip_location a) (a_description a) now in
          inr (mkDB (map (replace_row row) (cis d)) (rels d), row)
    | _, _, _ => inl NotNull
    end.

(** Whether relationship [r] has CI [i] at one of its ends. *)
Definition touches (i : Z) (r : Relationship) : bool :=
  (Z.eqb (source_ci_id r) i || Z.eqb (target_ci_id r) i)%bool.

(** [db.session.delete(ci); db.session.commit()]: both [source_relationships]
    and [target_relationships] carry [cascade="all, delete-orphan"], so the
    unit of work deletes every relationship in either collection together
    with the CI. *)
Definition delete_ci_row (d : DB) (c : ConfigurationItem) : DB :=
  mkDB (filter (fun x => negb (Z.eqb (ci_id x) (ci_id c))) (cis d))
       (filter (fun r => negb (touches (ci_id c) r)) (rels d)).

(** [db.session.delete(rel); db.session.commit()]. *)
Definition delete_rel_row (d : DB) (r : Relationship) : DB :=
  mkDB (cis d) (filter (fun x => negb (Z.eqb (rel_id x) (rel_id r))) (rels d)).

(** [db.session.add(Relationship(...)); db.session.commit()]: the table's
    CHECK constraint refuses a self loop.  SQLite does not enforce the two
    foreign keys unless asked to, and the application never asks. *)
Definition insert_rel (d : DB) (s t : Z) (ty : string)
  : integrity + (DB * Relationship) :=
  if Z.eqb s t then inl ck_not_self_referential
  else
    let row := mkRel (next_rowid (map rel_id (rels d))) s t ty in
    inr (mkDB (cis d) (rels d ++ [row]), row).

(** ** Requests and replies of the JSON API *)

(** The bodies of the error replies, one constructor per message of
    [app.py]. *)
Inductive error_body : Type :=
| No_input_data
| Missing_required_fields (fields : list string)
| CI_name_already_exists (name : option string)
| Update_naming_conflict (name : option string)
| CI_not_found (cid : Z)
| Ids_must_be_integers
| Same_source_and_target
| Invalid_relationship_type
| Source_CI_not_found (cid : Z)
| Target_CI_not_found (cid : Z)
| Db_self_referential
| Db_integrity_error
| Relationship_not_found (rid : Z)
| Invalid_direction
| Internal_server_error.

(** [return jsonify(body), code] and [return jsonify({"error": ...}), code];
    the empty body of a 204 is [tt]. *)
Inductive reply (A : Type) : Type :=
| Json (body : A) (code : Z)
| Error (e : error_body) (code : Z).
Arguments Json {A} body code.
Arguments Error {A} e code.

(** The error kinds of the design, read off the replies: a 404 is a
    [NotFoundError], the two name-clash messages are a [DuplicateNameError],
    the storage fallback is a [DuplicateConstraintError], and every other 400
    is a [ValidationError].  Flask's 500 for an exception no handler caught is
    none of the design's kinds. *)
Inductive error_kind : Type :=
| ValidationError
| NotFoundError
| DuplicateNameError
| DuplicateConstraintError
| UnhandledError.

Definition kind_of_error (e : error_body) : error_kind :=
  match e with
  | No_input_data | Missing_required_fields _ | Ids_must_be_integers
  | Same_source_and_target | Invalid_relationship_type | Db_self_referential
  | Invalid_direction => ValidationError
  | CI_name_already_exists _ | Update_naming_conflict _ => DuplicateNameError
  | CI_not_found _ | Source_CI_not_found _ | Target_CI_not_found _
  | Relationship_not_found _ => NotFoundError
  | Db_integrity_error => DuplicateConstraintError
  | Internal_server_error => UnhandledError
  end.

(** The reply of an API handler whose look-up of [key] found no row: its own
    "not found" reply [r], unless the look-up raised.  The look-ups of the API
    handlers stand outside their [try] blocks, so Flask then answers 500. *)
Definition not_found_reply {A : Type} (key : Z) (r : reply A) : reply A :=
  if sqlite_int key then r else Error Internal_server_error 500.

Definition fails_with {A : Type} (r : reply A) (k : error_kind) : Prop :=
  exists e code, r = Error e code /\ kind_of_error e = k.

(** A key of the JSON object of a CI request: [None] when the key is absent,
    [Some None] when it is there with [null], [Some (Some s)] with a string. *)
Definition jfield : Type := option (option string).

Record ci_payload : Type := mkPayload {
  p_ci_name : jfield;
  p_ci_type : jfield;
  p_status : jfield;
  p_owner : jfield;
  p_ip_location : jfield;
  p_description : jfield
}.

(** [data.get(key)]. *)
Definition dict_get (f : jfield) : option string :=
  match f with
  | Some v => v
  | None => None
  end.

(** [obj.attr = data[key]] under [if key in data]. *)
Definition assign_if_present (f : jfield) (old : option string) : option string :=
  match f with
  | Some v => v
  | None => old
  end.

(** [[field for field in required_fields if field not in data or not data[field]]]. *)
Definition missing_required (fields : list (string * jfield)) : list string :=
  map fst (filter (fun kf => negb (truthy (dict_get (snd kf)))) fields).

(** ** API endpoints for CIs.  The body of the request is [None] when
    [request.get_json()] returns a falsy value (the JSON [null], or the empty
    object). *)

Definition create_ci (d : DB) (now : Z) (data : option ci_payload)
  : DB * reply ConfigurationItem :=
  match data with
  | None => (d, Error No_input_data 400)
  | Some data =>
      match missing_required [("ci_name", p_ci_name data);
                              ("ci_type", p_ci_type data);
                              ("status", p_status data)] with
      | (_ :: _) as missing_fields =>
          (d, Error (Missing_required_fields missing_fields) 400)
      | [] =>
          let new_ci :=
            mkAttrs (dict_get (p_ci_name data)) (dict_get (p_ci_type data))
                    (dict_get (p_status data)) (dict_get (p_owner data))
                    (dict_get (p_ip_location data))
                    (dict_get (p_description data)) in
          match insert_ci d now new_ci with
          | inr (d', row) => (d', Json row 201)
          | inl _ =>
              (d, Error (CI_name_already_exists (dict_get (p_ci_name data))) 400)
          end
      end
  end.

Definition get_ci (d : DB) (cid : Z) : reply ConfigurationItem :=
  match session_get_ci d cid with
  | Some ci => Json ci 200
  | None => not_found_reply cid (Error (CI_not_found cid) 404)
  end.

Definition update_ci (d : DB) (now : Z) (cid : Z) (data : option ci_payload)
  : DB * reply ConfigurationItem :=
  match session_get_ci d cid with
  | None => (d, not_found_reply cid (Error (CI_not_found cid) 404))
  | Some ci =>
      match data with
      | None => (d, Error No_input_data 400)
      | Some data =>
          let clash :=
            match p_ci_name data with
            | Some v =>
                if opt_eqb v (Some (ci_name ci)) then false
                else match first_by_name d v with
                     | Some _ => true
                     | None => false
                     end
            | None => false
            end in
          if clash
          then (d, Error (CI_name_already_exists (dict_get (p_ci_name data))) 400)
          else
            let a := attrs_of ci in
            let a' :=
              mkAttrs (assign_if_present (p_ci_name data) (a_ci_name a))
                      (assign_if_present (p_ci_type data) (a_ci_type a))
                      (assign_if_present (p_status data) (a_status a))
                      (assign_if_present (p_owner data) (a_owner a))
                      (assign_if_present (p_ip_location data) (a_ip_location a))
                      (assign_if_present (p_description data) (a_description a)) in
            match update_ci_row d now ci a' with
            | inr (d', row) => (d', Json row 200)
            | inl _ =>
                (d, Error (Update_naming_conflict (dict_get (p_ci_name data))) 400)
            end
      end
  end.

Definition delete_ci (d : DB) (cid : Z) : DB * reply unit :=
  match session_get_ci d cid with
  | None => (d, not_found_reply cid (Error (CI_not_found cid) 404))
  | Some ci => (delete_ci_row d ci, Json tt 204)
  end.

(** The query string of [/api/cis] and [/ui/cis]: each argument is absent or
    a string. *)
Record ci_filter : Type := mkFilter {
  arg_ci_name : option string;
  arg_ci_type : option string;
  arg_status : option string;
  arg_owner : option string
}.

Definition no_filter : ci_filter := mkFilter None None None None.

(** [column == value] on a nullable column: NULL compares equal to nothing. *)
Definition col_eq (column : option string) (value : string) : bool :=
  match column with
  | Some c => String.eqb c value
  | None => false
  end.


(** [if value: query = query.filter(pred)]. *)
Definition when (value : option string) (pred : string -> bool) : bool :=
  match value with
  | Some v => if truthy value then pred v else true
  | None => true
  end.

(** The WHERE clause [get_all_cis] builds. *)
Definition api_matches (f : ci_filter) (c : ConfigurationItem) : bool :=
  (when (arg_ci_type f) (fun v => String.eqb (ci_type c) v)
   && when (arg_status f) (fun v => String.eqb (status c) v)
   && when (arg_owner f) (fun v => col_eq (owner c) v)
   && when (arg_ci_name f) (fun v => ilike (ci_name c) (percent_wrap v)))%bool.

(** [query.all()] with no ORDER BY: the rows come in table order. *)
Definition get_all_cis (d : DB) (f : ci_filter) : reply (list ConfigurationItem) :=
  Json (filter (api_matches f) (cis d)) 200.

(** ** API endpoints for relationships *)

Definition ALLOWED_RELATIONSHIP_TYPES : list string :=
  ["Depends on"; "Hosts"; "Connected to"; "Runs on"; "Provides"].

(** A JSON value of the relationship request, as far as the handler tells
    values apart: [null], an integer, a string.  Other values (fractions,
    arrays, objects) fare as a string does where an id is wanted, and as
    [null] does where the type is wanted. *)
Inductive json : Type :=
| JNull
| JInt (z : Z)
| JStr (s : string).

(** The keys of the JSON object; [None] when the key is absent. *)
Record rel_payload : Type := mkRelPayload {
  p_source_ci_id : option json;
  p_target_ci_id : option json;
  p_relationship_type : option json
}.

(** [data.get(key)]. *)
Definition json_get (f : option json) : json :=
  match f with
  | Some v => v
  | None => JNull
  end.

(** [[field for field in required_fields if field not in data]]. *)
Definition missing_keys (fields : list (string * option json)) : list string :=
  map fst (filter (fun kf => match snd kf with None => true | Some _ => false end)
                  fields).

(** [relationship_type not in ALLOWED_RELATIONSHIP_TYPES], negated. *)
Definition allowed_type (v : json) : option string :=
  match v with
  | JStr s =>
      if existsb (String.eqb s) ALLOWED_RELATIONSHIP_TYPES then Some s else None
  | _ => None
  end.

(** What [relationship_to_dict] puts in the reply: the row and the names of
    the CIs at its two ends, ["N/A"] for an end that is not there. *)
Record rel_dict : Type := mkRelDict {
  d_id : Z;
  d_source_ci_id : Z;
  d_source_ci_name : string;
  d_target_ci_id : Z;
  d_target_ci_name : string;
  d_relationship_type : string
}.

Definition name_or_NA (d : DB) (cid : Z) : string :=
  match session_get_ci d cid with
  | Some c => ci_name c
  | None => "N/A"
  end.

Definition relationship_to_dict (d : DB) (r : Relationship) : rel_dict :=
  mkRelDict (rel_id r)
            (source_ci_id r) (name_or_NA d (source_ci_id r))
            (target_ci_id r) (name_or_NA d (target_ci_id r))
            (relationship_type r).

Definition create_relationship (d : DB) (data : option rel_payload)
  : DB * reply rel_dict :=
  match data with
  | None => (d, Error No_input_data 400)
  | Some data =>
      match missing_keys [("source_ci_id", p_source_ci_id data);
                          ("target_ci_id", p_target_ci_id data);
                          ("relationship_type", p_relationship_type data)] with
      | (_ :: _) as missing_fields =>
          (d, Error (Missing_required_fields missing_fields) 400)
      | [] =>
          match json_get (p_source_ci_id data), json_get (p_target_ci_id data) with
          | JInt source, JInt target =>
              if Z.eqb source target then (d, Error Same_source_and_target 400)
              else
                match allowed_type (json_get (p_relationship_type data)) with
                | None => (d, Error Invalid_relationship_type 400)
                | Some ty =>
                    if (raised (session_get_ci d source) source
                        || raised (session_get_ci d target) target)%bool
                    then (d, Error Internal_server_error 500)
                    else
                    match session_get_ci d source, session_get_ci d target with
                    | None, _ => (d, Error (Source_CI_not_found source) 404)
                    | Some _, None => (d, Error (Target_CI_not_found target) 404)
                    | Some _, Some _ =>
                        match insert_rel d source target ty with
                        | inr (d', row) => (d', Json (relationship_to_dict d' row) 201)
                        | inl ck_not_self_referential =>
                            (d, Error Db_self_referential 400)
                        | inl _ => (d, Error Db_integrity_error 400)
                        end
                    end
                end
          | _, _ => (d, Error Ids_must_be_integers 400)
          end
      end
  end.

Definition get_relationship (d : DB) (rid : Z) : reply rel_dict :=
  match session_get_rel d rid with
  | Some r => Json (relationship_to_dict d r) 200
  | None => not_found_reply rid (Error (Relationship_not_found rid) 404)
  end.

Definition delete_relationship (d : DB) (rid : Z) : DB * reply unit :=
  match session_get_rel d rid with
  | None => (d, not_found_reply rid (Error (Relationship_not_found rid) 404))
  | Some r => (delete_rel_row d r, Json tt 204)
  end.

(** [request.args.get('direction', 'all').lower()]. *)
Definition direction_arg (direction : option string) : string :=
  lower (match direction with Some s => s | None => "all" end).

Definition get_relationships_for_ci (d : DB) (cid : Z) (direction : option string)
  : reply (list rel_dict) :=
  match session_get_ci d cid with
  | None => not_found_reply cid (Error (CI_not_found cid) 404)
  | Some _ =>
      let direction := direction_arg direction in
      if String.eqb direction "source" then
        Json (map (relationship_to_dict d)
                  (filter (fun r => Z.eqb (source_ci_id r) cid) (rels d))) 200
      else if String.eqb direction "target" then
        Json (map (relationship_to_dict d)
                  (filter (fun r => Z.eqb (target_ci_id r) cid) (rels d))) 200
      else if String.eqb direction "all" then
        Json (map (relationship_to_dict d)
                  (filter (fun r => (Z.eqb (source_ci_id r) cid
                                     || Z.eqb (target_ci_id r) cid)%bool) (rels d))) 200
      else Error Invalid_direction 400
  end.

(** ** The CI pages of the UI.  A form field is [None] when the form does not
    carry it. *)

(** [ORDER BY ci_name]: SQLite compares text byte by byte. *)
Fixpoint insert_by_name (c : ConfigurationItem) (l : list ConfigurationItem)
  : list ConfigurationItem :=
  match l with
  | [] => [c]
  | x :: l' =>
      if String.ltb (ci_name c) (ci_name x) then c :: l
      else x :: insert_by_name c l'
  end.




(** The flashed message of a UI reply; [Internal_error_page] is Flask's 500
    page for an exception the handler did not catch, with nothing flashed. *)
Inductive flash : Type :=
| Required_fields
| Name_already_exists (name : string)
| Another_CI_has_name (name : string)
| Added (name : string)
| Updated (name : string)
| Deleted (cid : Z)
| Not_found (cid : Z)
| Relationship_missing (rid : Z)
| Relationship_elsewhere (rid cid : Z)
| Relationship_deleted
| Error_flash
| Internal_error_page.

Record ci_form : Type := mkForm {
  f_ci_name : option string;
  f_ci_type : option string;
  f_status : option string;
  f_owner : option string;
  f_ip_location : option string;
  f_description : option string
}.

Definition attrs_of_form (f : ci_form) : ci_attrs :=
  mkAttrs (f_ci_name f) (f_ci_type f) (f_status f)
          (f_owner f) (f_ip_location f) (f_description f).

Definition required_given (f : ci_form) : bool :=
  (truthy (f_ci_name f) && truthy (f_ci_type f) && truthy (f_status f))%bool.

(** POST to [/ui/ci/add]. *)
Definition add_ci_ui (d : DB) (now : Z) (f : ci_form) : DB * flash :=
  match f_ci_name f with
  | Some name =>
      if negb (required_given f) then (d, Required_fields)
      else
        match first_by_name d (Some name) with
        | Some _ => (d, Name_already_exists name)
        | None =>
            match insert_ci d now (attrs_of_form f) with
            | inr (d', row) => (d', Added (ci_name row))
            | inl _ => (d, Error_flash)
            end
        end
  | None => (d, Required_fields)
  end.

(** POST to [/ui/ci/<ci_id>/edit]. *)
Definition edit_ci_ui (d : DB) (now : Z) (cid : Z) (f : ci_form) : DB * flash :=
  match session_get_ci d cid with
  | None => (d, if sqlite_int cid then Not_found cid else Internal_error_page)
  | Some ci_to_edit =>
      match f_ci_name f with
      | Some new_name =>
          if negb (required_given f) then (d, Required_fields)
          else
            let clash :=
              if String.eqb (ci_name ci_to_edit) new_name then false
              else existsb (fun c => negb (Z.eqb (ci_id c) cid)
                                     && String.eqb (ci_name c) new_name)%bool (cis d) in
            if clash then (d, Another_CI_has_name new_name)
            else
              match update_ci_row d now ci_to_edit (attrs_of_form f) with
              | inr (d', row) => (d', Updated (ci_name row))
              | inl _ => (d, Error_flash)
              end
      | None => (d, Required_fields)
      end
  end.

(** POST to [/ui/ci/<ci_id>/delete].  The look-up stands inside the [try]:
    when it raises, the handler rolls back and flashes the error. *)
Definition delete_ci_ui (d : DB) (cid : Z) : DB * flash :=
  match session_get_ci d cid with
  | Some ci_to_delete => (delete_ci_row d ci_to_delete, Deleted cid)
  | None => (d, if sqlite_int cid then Not_found cid else Error_flash)
  end.

(** POST to [/ui/relationship/<rel_id>/delete/from_ci/<ci_id>].  Reading the
    names of the two ends raises when an end is not there, and the handler
    then rolls back. *)
Definition delete_relationship_ui (d : DB) (rid cid : Z) : DB * flash :=
  match session_get_rel d rid with
  | None =>
      (d, if sqlite_int rid then Relationship_missing rid else Internal_error_page)
  | Some rel_to_delete =>
      if (negb (Z.eqb (source_ci_id rel_to_delete) cid)
          && negb (Z.eqb (target_ci_id rel_to_delete) cid))%bool
      then (d, Relationship_elsewhere rid cid)
      else
        match session_get_ci d (source_ci_id rel_to_delete),
              session_get_ci d (target_ci_id rel_to_delete) with
        | Some _, Some _ => (delete_rel_row d rel_to_delete, Relationship_deleted)
        | _, _ => (d, Error_flash)
        end
  end.

(** ** The command line: [flask init-db] and [flask seed-db] *)

Definition init_db_command (d : DB) : DB := empty_db.

Definition sample_cis : list ci_attrs :=
  [ mkAttrs (Some "WebServer-Prod-01") (Some "Server") (Some "Active")
            (Some "InfraTeam") (Some "10.0.1.10") (Some "Main production web server");
    mkAttrs (Some "AppServer-Prod-01") (Some "Server") (Some "Active")
            (Some "AppTeam") (Some "10.0.1.11") (Some "Main application server");
    mkAttrs (Some "CustomerDB-Prod-01") (Some "Database") (Some "Active")
            (Some "DBTeam") (Some "10.0.2.5") (Some "Primary customer database");
    mkAttrs (Some "BillingApp-Prod") (Some "Application") (Some "Active")
            (Some "FinanceAppTeam") None (Some "Handles all customer billing");
    mkAttrs (Some "MainWebsite-Prod") (Some "Application") (Some "Active")
            (Some "WebTeam") None (Some "Public facing website");
    mkAttrs (Some "OfficeRouter-HQ") (Some "Network Device") (Some "Active")
            (Some "NetOps") (Some "192.168.1.1") (Some "Main office router");
    mkAttrs (Some "AuthService-Prod") (Some "Application") (Some "Active")
            (Some "SecurityTeam") None
            (Some "Authentication and Authorization service") ].

(** [db.session.add_all(objs); db.session.commit()] for CIs: the rows are
    inserted in order, and the first refusal undoes them all. *)
Fixpoint add_all_cis (d : DB) (now : Z) (objs : list ci_attrs)
  : integrity + (DB * list ConfigurationItem) :=
  match objs with
  | [] => inr (d, [])
  | a :: objs' =>
      match insert_ci d now a with
      | inl e => inl e
      | inr (d1, row) =>
          match add_all_cis d1 now objs' with
          | inl e => inl e
          | inr (d2, rows) => inr (d2, row :: rows)
          end
      end
  end.

Fixpoint add_all_rels (d : DB) (objs : list (Z * Z * string)) : integrity + DB :=
  match objs with
  | [] => inr d
  | (s, t, ty) :: objs' =>
      match insert_rel d s t ty with
      | inl e => inl e
      | inr (d1, _) => add_all_rels d1 objs'
      end
  end.

Definition seed_db_command (d : DB) (now : Z) : DB :=
  match cis d with
  | _ :: _ => d
  | [] =>
      match add_all_cis d now sample_cis with
      | inr (d1, [ci1; ci2; ci3; ci4; ci5; ci6; ci7]) =>
          match add_all_rels d1
                  [ (ci_id ci4, ci_id ci2, "Runs on");
                    (ci_id ci4, ci_id ci3, "Depends on");
                    (ci_id ci5, ci_id ci1, "Runs on");
                    (ci_id ci2, ci_id ci7, "Depends on");
                    (ci_id ci1, ci_id ci6, "Connected to");
                    (ci_id ci7, ci_id ci3, "Depends on") ] with
          | inr d2 => d2
          | inl _ => d1
          end
      | inr (d1, _) => d1
      | inl _ => d
      end
  end.

(** ** The system as a whole: every request that can change the store *)

Inductive request : Type :=
| POST_api_ci (now : Z) (data : option ci_payload)
| PUT_api_ci (now : Z) (cid : Z) (data : option ci_payload)
| DELETE_api_ci (cid : Z)
| POST_api_relationship (data : option rel_payload)
| DELETE_api_relationship (rid : Z)
| POST_ui_ci_add (now : Z) (f : ci_form)
| POST_ui_ci_edit (now : Z) (cid : Z) (f : ci_form)
| POST_ui_ci_delete (cid : Z)
| POST_ui_relationship_delete (rid cid : Z)
| CLI_init_db
| CLI_seed_db (now : Z).

Definition step (d : DB) (r : request) : DB :=
  match r with
  | POST_api_ci now data => fst (create_ci d now data)
  | PUT_api_ci now cid data => fst (update_ci d now cid data)
  | DELETE_api_ci cid => fst (delete_ci d cid)
  | POST_api_relationship data => fst (create_relationship d data)
  | DELETE_api_relationship rid => fst (delete_relationship d rid)
  | POST_ui_ci_add now f => fst (add_ci_ui d now f)
  | POST_ui_ci_edit now cid f => fst (edit_ci_ui d now cid f)
  | POST_ui_ci_delete cid => fst (delete_ci_ui d cid)
  | POST_ui_relationship_delete rid cid => fst (delete_relationship_ui d rid cid)
  | CLI_init_db => init_db_command d
  | CLI_seed_db now => seed_db_command d now
  end.

(** The store after a run of requests, oldest first. *)
Definition run (rs : list request) (d : DB) : DB := fold_left step rs d.

(** The states the system can be in: those a run of requests leads to from
    the freshly created tables. *)
Inductive reachable : DB -> Prop :=
| reach_empty : reachable empty_db
| reach_step (d : DB) (r : request) : reachable d -> reachable (step d r).

(** What the schema promises of the stored rows: primary keys and CI names
    are unique, and every relationship joins two different CIs of the store
    with one of the allowed types. *)
Definition edge_ok (d : DB) (r : Relationship) : Prop :=
  source_ci_id r <> target_ci_id r
  /\ In (source_ci_id r) (map ci_id (cis d))
  /\ In (target_ci_id r) (map ci_id (cis d))
  /\ In (relationship_type r) ALLOWED_RELATIONSHIP_TYPES.

Record db_ok (d : DB) : Prop := mk_db_ok {
  ok_ci_pk : NoDup (map ci_id (cis d));
  ok_ci_name : NoDup (map ci_name (cis d));
  ok_rel_pk : NoDup (map rel_id (rels d));
  ok_edges : Forall (edge_ok d) (rels d)
}.

(** ** Vocabulary of the properties *)

(** The three lists the endpoint can return for CI [cid]. *)
Definition as_source (d : DB) (cid : Z) : list rel_dict :=
  map (relationship_to_dict d)
      (filter (fun r => Z.eqb (source_ci_id r) cid) (rels d)).

Definition as_target (d : DB) (cid : Z) : list rel_dict :=
  map (relationship_to_dict d)
      (filter (fun r => Z.eqb (target_ci_id r) cid) (rels d)).

Definition as_either (d : DB) (cid : Z) : list rel_dict :=
  map (relationship_to_dict d)
      (filter (fun r => (Z.eqb (source_ci_id r) cid
                         || Z.eqb (target_ci_id r) cid)%bool) (rels d)).

(** The values the design gives the direction argument. *)
Definition direction_values : list string := ["source"; "target"; "all"].

(** A reply lists exactly the relationships of the store that satisfy [P]:
    each of them once, rendered by [relationship_to_dict], and nothing
    else. *)
Definition lists_exactly
  (d : DB) (rp : reply (list rel_dict)) (P : Relationship -> Prop) : Prop :=
  exists l,
    rp = Json (map (relationship_to_dict d) l) 200
    /\ NoDup l
    /\ forall r, In r l <-> In r (rels d) /\ P r.

(** The store of the design's scenario: CIs A (id 1) and B (id 2), and the
    relationship A -> B, "Depends on", created through the API. *)
Definition ci_request (name type : string) : option ci_payload :=
  Some (mkPayload (Some (Some name)) (Some (Some type)) (Some (Some "Active"))
                  None None None).

Definition rel_request (s t : Z) (ty : string) : option rel_payload :=
  Some (mkRelPayload (Some (JInt s)) (Some (JInt t)) (Some (JStr ty))).

Definition A_depends_on_B : DB :=
  run [POST_api_ci 10 (ci_request "A" "Server");
       POST_api_ci 11 (ci_request "B" "Database");
       POST_api_relationship (rel_request 1 2 "Depends on")] empty_db.







Definition by_name_ascending (l : list ConfigurationItem) : Prop :=
  Sorted (fun a b => String.leb (ci_name a) (ci_name b) = true) l.


(** The store [flask seed-db] leaves, starting from empty tables. *)
Definition seeded : DB := run [CLI_seed_db 0] empty_db.

(** ** The to-do pages: the in-memory list [todos] *)

(** [str.isspace] on one character (code points below 256). *)
Definition is_space (c : ascii) : bool :=
  let n := N_of_ascii c in
  ((N.leb 9 n && N.leb n 13) || (N.leb 28 n && N.leb n 32)
   || N.eqb n 133 || N.eqb n 160)%bool.

Fixpoint lstrip (s : string) : string :=
  match s with
  | EmptyString => EmptyString
  | String c s' => if is_space c then lstrip s' else s
  end.

Fixpoint rstrip (s : string) : string :=
  match s with
  | EmptyString => EmptyString
  | String c s' =>
      match rstrip s' with
      | EmptyString => if is_space c then EmptyString else String c EmptyString
      | r => String c r
      end
  end.

(** [str.strip()]. *)
Definition strip (s : string) : string := rstrip (lstrip s).

(** What a to-do page answers with. *)
Inductive page : Type :=
| Redirect_to_index
| Render_index (todos : list string).

(** [index]: GET [/]. *)
Definition index (todos : list string) : page := Render_index todos.

(** [add_todo]: POST [/add]; the form field is [None] when the form does not
    carry it. *)
Definition add_todo (todos : list string) (field : option string)
  : list string * page :=
  let todo := strip (match field with Some s => s | None => "" end) in
  if negb (String.eqb todo "") then (todos ++ [todo], Redirect_to_index)
  else (todos, Render_index todos).

(** [todos.pop(i)] for an index in range. *)
Definition pop {A : Type} (i : nat) (l : list A) : list A :=
  firstn i l ++ skipn (S i) l.

(** [remove_todo]: GET [/remove/<int:todo_id>]. *)
Definition remove_todo (todos : list string) (todo_id : Z) : list string * page :=
  if (Z.leb 0 todo_id && Z.ltb todo_id (Z.of_nat (List.length todos)))%bool
  then (pop (Z.to_nat todo_id) todos, Redirect_to_index)
  else (todos, Redirect_to_index).

Inductive todo_request : Type :=
| POST_add (field : option string)
| GET_remove (todo_id : Z).

Definition todo_step (todos : list string) (r : todo_request) : list string :=
  match r with
  | POST_add field => fst (add_todo todos field)
  | GET_remove todo_id => fst (remove_todo todos todo_id)
  end.

(** The rest of the CI pages *)

(** [ui_index]: the two counts the dashboard shows. *)
Definition ui_index (d : DB) : Z * Z :=
  (Z.of_nat (List.length (cis d)), Z.of_nat (List.length (rels d))).

(** [view_ci_ui]: the CI with its [source_relationships] and
    [target_relationships] when the page of the CI is rendered; [None] when
    it is not (the redirect with "not found", or Flask's 500 for a key SQLite
    cannot bind). *)
Definition view_ci_ui (d : DB) (cid : Z)
  : option (ConfigurationItem * list Relationship * list Relationship) :=
  match session_get_ci d cid with
  | None => None
  | Some ci =>
      Some (ci,
            filter (fun r => Z.eqb (source_ci_id r) (ci_id ci)) (rels d),
            filter (fun r => Z.eqb (target_ci_id r) (ci_id ci)) (rels d))
  end.

(** Vocabulary of the to-do properties *)

Fixpoint all_space (s : string) : bool :=
  match s with
  | EmptyString => true
  | String c s' => (is_space c && all_space s')%bool
  end.

Definition head_space (s : string) : bool :=
  match s with
  | EmptyString => false
  | String c _ => is_space c
  end.

Fixpoint last_space (s : string) : bool :=
  match s with
  | EmptyString => false
  | String c EmptyString => is_space c
  | String _ s' => last_space s'
  end.

(** A stored to-do: not empty, no white space at either end. *)
Definition tidy (t : string) : Prop :=
  t <> "" /\ head_space t = false /\ last_space t = false.

(** The form of a CI request that carries the same values. *)
Definition form_of_payload (p : ci_payload) : ci_form :=
  mkForm (dict_get (p_ci_name p)) (dict_get (p_ci_type p)) (dict_get (p_status p))
         (dict_get (p_owner p)) (dict_get (p_ip_location p))
         (dict_get (p_description p)).


(** A store SQLite can hold: every key is a signed 64-bit integer. *)
Definition storable (d : DB) : Prop :=
  Forall (fun c => sqlite_int (ci_id c) = true) (cis d)
  /\ Forall (fun r => sqlite_int (rel_id r) = true) (rels d).

(** * Properties *)

(** ** Look-ups and fresh keys *)

Lemma next_rowid_above (ids : list Z) (x : Z) :
  In x ids -> x < next_rowid ids.
Proof.
  unfold next_rowid. induction ids as [|y ids IH]; simpl; [tauto|].
  intros [->|Hin]; [lia|]. specialize (IH Hin). lia.
Qed.

Lemma next_rowid_fresh (ids : list Z) : ~ In (next_rowid ids) ids.
Proof. intros Hin. apply next_rowid_above in Hin. lia. Qed.

Lemma session_get_ci_None (d : DB) (i : Z) :
  session_get_ci d i = None <-> ~ In i (map ci_id (cis d)).
Proof.
  unfold session_get_ci. split.
  - intros Hnone Hin. apply in_map_iff in Hin as (c & Hc & Hin).
    apply (find_none _ _ Hnone) in Hin. simpl in Hin. lia.
  - intros Hnot. destruct (find _ _) as [c|] eqn:Hf; [|reflexivity].
    apply find_some in Hf as [Hin Heq]. exfalso. apply Hnot.
    apply in_map_iff. exists c. split; [lia | assumption].
Qed.

Lemma session_get_ci_Some (d : DB) (i : Z) (c : ConfigurationItem) :
  session_get_ci d i = Some c -> In c (cis d) /\ ci_id c = i.
Proof.
  unfold session_get_ci. intros Hf. apply find_some in Hf as [Hin Heq].
  split; [assumption | lia].
Qed.

Lemma session_get_rel_Some (d : DB) (i : Z) (r : Relationship) :
  session_get_rel d i = Some r -> In r (rels d) /\ rel_id r = i.
Proof.
  unfold session_get_rel. intros Hf. apply find_some in Hf as [Hin Heq].
  split; [assumption | lia].
Qed.

Lemma find_snoc_fresh {A : Type} (p : A -> bool) (l : list A) (x : A) :
  (forall y, In y l -> p y = false) -> p x = true -> find p (l ++ [x]) = Some x.
Proof.
  induction l as [|y l IH]; simpl; intros Hl Hx.
  - now rewrite Hx.
  - rewrite (Hl y (or_introl eq_refl)). apply IH; auto.
Qed.

Lemma existsb_name_false (l : list ConfigurationItem) (n : string) :
  existsb (fun c => String.eqb (ci_name c) n) l = false <->
  ~ In n (map ci_name l).
Proof.
  induction l as [|c l IH]; simpl.
  - tauto.
  - rewrite orb_false_iff, String.eqb_neq, IH. tauto.
Qed.

Lemma truthy_Some (v : option string) :
  truthy v = true <-> exists s, v = Some s /\ s <> "".
Proof.
  destruct v as [s|]; simpl.
  - rewrite negb_true_iff, String.eqb_neq. split.
    + intros H. now exists s.
    + intros (s' & [= <-] & H). assumption.
  - split; [discriminate | intros (s & H & _); discriminate].
Qed.

(** ** Claim C8: create, then get *)

(** C8.  For a store [d] and a request whose name, type and status are
    non-empty strings, the name being held by no CI of [d], [create_ci]
    succeeds with 201 and the new row; the row carries the six values of the
    request, a key no other row has, and the clock reading as [last_updated];
    and [get_ci] on that key in the new store returns the same row. *)
Theorem create_then_get_round_trip
  (d : DB) (now : Z) (data : ci_payload) (n t s : string) :
  dict_get (p_ci_name data) = Some n -> n <> "" ->
  dict_get (p_ci_type data) = Some t -> t <> "" ->
  dict_get (p_status data) = Some s -> s <> "" ->
  ~ In n (map ci_name (cis d)) ->
  let row := mkCI (next_rowid (map ci_id (cis d))) n t s
                  (dict_get (p_owner data)) (dict_get (p_ip_location data))
                  (dict_get (p_description data)) now in
  exists d',
    create_ci d now (Some data) = (d', Json row 201)
    /\ ~ In (ci_id row) (map ci_id (cis d))
    /\ get_ci d' (ci_id row) = Json row 200.
Proof.
  intros Hn Hn0 Ht Ht0 Hs Hs0 Hfree row.
  exists (mkDB (cis d ++ [row]) (rels d)).
  assert (Hid : ~ In (ci_id row) (map ci_id (cis d))) by apply next_rowid_fresh.
  split; [|split; [exact Hid|]].
  - unfold create_ci, missing_required. simpl.
    rewrite Hn, Ht, Hs. simpl.
    apply String.eqb_neq in Hn0, Ht0, Hs0. rewrite Hn0, Ht0, Hs0. simpl.
    unfold insert_ci. simpl.
    apply existsb_name_false in Hfree. rewrite Hfree. reflexivity.
  - unfold get_ci, session_get_ci. simpl.
    rewrite find_snoc_fresh; [reflexivity| |apply Z.eqb_refl].
    intros y Hy. apply Z.eqb_neq. intros Heq. apply Hid.
    simpl in Heq |- *. rewrite <- Heq. now apply in_map.
Qed.

Lemma create_then_get_round_trip_witness :
  exists d',
    create_ci empty_db 7
      (Some (mkPayload (Some (Some "WebServer-Prod-01")) (Some (Some "Server"))
                       (Some (Some "Active")) (Some (Some "InfraTeam")) None
                       (Some None)))
    = (d', Json (mkCI 1 "WebServer-Prod-01" "Server" "Active"
                      (Some "InfraTeam") None None 7) 201)
    /\ ~ In 1 (map ci_id (cis empty_db))
    /\ get_ci d' 1
       = Json (mkCI 1 "WebServer-Prod-01" "Server" "Active"
                    (Some "InfraTeam") None None 7) 200.
Proof.
  apply (create_then_get_round_trip empty_db 7
           (mkPayload (Some (Some "WebServer-Prod-01")) (Some (Some "Server"))
                      (Some (Some "Active")) (Some (Some "InfraTeam")) None
                      (Some None))
           "WebServer-Prod-01" "Server" "Active");
    simpl; try reflexivity; try discriminate; tauto.
Defined.

(** ** Claims C3, C7 and C9: what [create_relationship] refuses *)

Lemma allowed_type_Some (v : json) (ty : string) :
  allowed_type v = Some ty <-> v = JStr ty /\ In ty ALLOWED_RELATIONSHIP_TYPES.
Proof.
  destruct v as [|z|s]; unfold allowed_type;
    try (split; [discriminate | intros [[=] _]]).
  destruct (existsb (String.eqb s) ALLOWED_RELATIONSHIP_TYPES) eqn:He.
  - apply existsb_exists in He as (x & Hx & Heq). apply String.eqb_eq in Heq.
    subst x. split.
    + intros [= <-]. now split.
    + intros [[= <-] _]. reflexivity.
  - split; [discriminate|]. intros [[= <-] Hin]. exfalso.
    assert (Ht : existsb (String.eqb s) ALLOWED_RELATIONSHIP_TYPES = true).
    { apply existsb_exists. exists s. split; [assumption | apply String.eqb_refl]. }
    congruence.
Qed.

Lemma allowed_type_None (v : json) :
  allowed_type v = None <->
  forall ty, v = JStr ty -> ~ In ty ALLOWED_RELATIONSHIP_TYPES.
Proof.
  split.
  - intros Hnone ty -> Hin.
    assert (H : allowed_type (JStr ty) = Some ty) by now apply allowed_type_Some.
    congruence.
  - intros H. destruct (allowed_type v) as [ty|] eqn:Ha; [|reflexivity].
    apply allowed_type_Some in Ha as [-> Hin]. now destruct (H ty eq_refl).
Qed.

(** C3.  A relationship request with a body [p]: if its source value equals
    its target value, or its type value is not one of the five allowed
    strings, the reply is a 400 of kind [ValidationError] and the store is the
    one given, so no relationship was created.  Nothing is assumed of the
    store, so it holds for ids of CIs that exist as for any other. *)
Theorem create_relationship_rejects_self_loop_or_bad_type
  (d : DB) (p : rel_payload) :
  p_source_ci_id p = p_target_ci_id p
  \/ (forall name, p_relationship_type p = Some (JStr name) ->
                   ~ In name ALLOWED_RELATIONSHIP_TYPES) ->
  exists e,
    create_relationship d (Some p) = (d, Error e 400)
    /\ kind_of_error e = ValidationError
    /\ fails_with (snd (create_relationship d (Some p))) ValidationError
    /\ rels (fst (create_relationship d (Some p))) = rels d.
Proof.
  intros Hbad.
  assert (H : exists e, create_relationship d (Some p) = (d, Error e 400)
                        /\ kind_of_error e = ValidationError).
  { unfold create_relationship, missing_keys.
    destruct p as [src tgt ty]. simpl in Hbad.
    destruct src as [src|], tgt as [tgt|], ty as [ty|]; simpl;
      try (eexists; split; [reflexivity | reflexivity]).
    destruct src as [|s|s], tgt as [|t|t];
      try (eexists; split; [reflexivity | reflexivity]).
    destruct (Z.eqb_spec s t) as [Heq|Hne];
      [eexists; split; [reflexivity | reflexivity]|].
    destruct Hbad as [Hbad|Hbad]; [congruence|].
    assert (Hnone : allowed_type ty = None).
    { apply allowed_type_None. intros name ->. now apply Hbad. }
    rewrite Hnone. eexists; split; [reflexivity | reflexivity]. }
  destruct H as (e & Heq & Hk). exists e. rewrite Heq. simpl.
  repeat split; try assumption. now exists e, 400.
Qed.

Lemma create_relationship_rejects_self_loop_or_bad_type_witness :
  exists e,
    create_relationship A_depends_on_B (rel_request 1 2 "Hacks into")
    = (A_depends_on_B, Error e 400)
    /\ kind_of_error e = ValidationError
    /\ fails_with (snd (create_relationship A_depends_on_B
                           (rel_request 1 2 "Hacks into"))) ValidationError
    /\ rels (fst (create_relationship A_depends_on_B
                     (rel_request 1 2 "Hacks into")))
       = rels A_depends_on_B.
Proof.
  apply (create_relationship_rejects_self_loop_or_bad_type A_depends_on_B
           (mkRelPayload (Some (JInt 1)) (Some (JInt 2)) (Some (JStr "Hacks into")))).
  right. intros name [= <-]. simpl. intuition discriminate.
Defined.


(** On a store SQLite can hold, a look-up raises exactly when its key is no
    64-bit integer: such a key is the key of no row. *)
Lemma raised_on_storable (d : DB) (key : Z) :
  storable d ->
  raised (session_get_ci d key) key = negb (sqlite_int key)
  /\ raised (session_get_rel d key) key = negb (sqlite_int key).
Proof.
  intros [Hc Hr]. rewrite Forall_forall in Hc, Hr. split.
  - destruct (session_get_ci d key) as [c|] eqn:Hg; [|reflexivity].
    apply session_get_ci_Some in Hg as [Hin <-]. simpl.
    now rewrite (Hc c Hin).
  - destruct (session_get_rel d key) as [r|] eqn:Hg; [|reflexivity].
    apply session_get_rel_Some in Hg as [Hin <-]. simpl.
    now rewrite (Hr r Hin).
Qed.




(** C9.  A relationship request whose source and target are the same integer
    [x], with an allowed type: the reply is the 400 "cannot be the same", a
    [ValidationError], whatever the store holds, so also when no CI has id
    [x]; it is never a 404. *)
Theorem self_reference_checked_before_existence
  (d : DB) (data : rel_payload) (x : Z) (ty : string) :
  p_source_ci_id data = Some (JInt x) ->
  p_target_ci_id data = Some (JInt x) ->
  p_relationship_type data = Some (JStr ty) ->
  In ty ALLOWED_RELATIONSHIP_TYPES ->
  create_relationship d (Some data) = (d, Error Same_source_and_target 400)
  /\ fails_with (snd (create_relationship d (Some data))) ValidationError
  /\ ~ fails_with (snd (create_relationship d (Some data))) NotFoundError.
Proof.
  intros Hs Ht Hty _.
  assert (H : create_relationship d (Some data)
              = (d, Error Same_source_and_target 400)).
  { unfold create_relationship, missing_keys. simpl.
    rewrite Hs, Ht, Hty. simpl. now rewrite Z.eqb_refl. }
  rewrite H. simpl. split; [reflexivity|split].
  - exists Same_source_and_target, 400. auto.
  - intros (e & code & [= <- <-] & Hk). discriminate.
Qed.

Lemma self_reference_checked_before_existence_witness :
  create_relationship empty_db
    (Some (mkRelPayload (Some (JInt 5)) (Some (JInt 5)) (Some (JStr "Runs on"))))
  = (empty_db, Error Same_source_and_target 400)
  /\ fails_with (snd (create_relationship empty_db
       (Some (mkRelPayload (Some (JInt 5)) (Some (JInt 5)) (Some (JStr "Runs on"))))))
       ValidationError
  /\ ~ fails_with (snd (create_relationship empty_db
       (Some (mkRelPayload (Some (JInt 5)) (Some (JInt 5)) (Some (JStr "Runs on"))))))
       NotFoundError.
Proof.
  apply (self_reference_checked_before_existence empty_db
           (mkRelPayload (Some (JInt 5)) (Some (JInt 5)) (Some (JStr "Runs on")))
           5 "Runs on"); try reflexivity.
  simpl. tauto.
Defined.

(** ** Claim C10: the direction argument *)

Lemma lower_ascii_idem (c : ascii) : lower_ascii (lower_ascii c) = lower_ascii c.
Proof. destruct c as [[] [] [] [] [] [] [] []]; reflexivity. Qed.

Lemma lower_idem (s : string) : lower (lower s) = lower s.
Proof.
  induction s as [|c s IH]; simpl; [reflexivity|].
  now rewrite lower_ascii_idem, IH.
Qed.

Lemma direction_arg_lower (dir : string) :
  direction_arg (Some (lower dir)) = direction_arg (Some dir).
Proof. unfold direction_arg. apply lower_idem. Qed.

(** C10.  For a CI [cid] of the store: with no direction argument the
    endpoint answers as for ["all"]; a given direction is lower-cased before
    it is looked at, so any [dir] gets the reply of [lower dir], and
    ["SOURCE"], ["Target"] and ["All"] get the 200 replies of ["source"],
    ["target"] and ["all"]. *)
Theorem direction_defaults_to_all_and_is_lowercased
  (d : DB) (cid : Z) (c : ConfigurationItem) :
  session_get_ci d cid = Some c ->
  get_relationships_for_ci d cid None = Json (as_either d cid) 200
  /\ get_relationships_for_ci d cid None
     = get_relationships_for_ci d cid (Some "all")
  /\ (forall dir,
        get_relationships_for_ci d cid (Some dir)
        = get_relationships_for_ci d cid (Some (lower dir)))
  /\ get_relationships_for_ci d cid (Some "SOURCE") = Json (as_source d cid) 200
  /\ get_relationships_for_ci d cid (Some "Target") = Json (as_target d cid) 200
  /\ get_relationships_for_ci d cid (Some "All") = Json (as_either d cid) 200.
Proof.
  intros Hc. unfold get_relationships_for_ci. rewrite Hc.
  repeat split; try reflexivity.
  intros dir. now rewrite direction_arg_lower.
Qed.

Lemma direction_defaults_to_all_and_is_lowercased_witness :
  let d := mkDB [mkCI 1 "a" "Server" "Active" None None None 0;
                 mkCI 2 "b" "Server" "Active" None None None 0]
                [mkRel 1 1 2 "Hosts"] in
  get_relationships_for_ci d 1 None = Json (as_either d 1) 200
  /\ get_relationships_for_ci d 1 None = get_relationships_for_ci d 1 (Some "all")
  /\ (forall dir,
        get_relationships_for_ci d 1 (Some dir)
        = get_relationships_for_ci d 1 (Some (lower dir)))
  /\ get_relationships_for_ci d 1 (Some "SOURCE") = Json (as_source d 1) 200
  /\ get_relationships_for_ci d 1 (Some "Target") = Json (as_target d 1) 200
  /\ get_relationships_for_ci d 1 (Some "All") = Json (as_either d 1) 200.
Proof.
  intros d.
  apply (direction_defaults_to_all_and_is_lowercased d 1
           (mkCI 1 "a" "Server" "Active" None None None 0)).
  reflexivity.
Defined.

(** ** The schema invariant holds in every reachable state *)

Lemma NoDup_snoc {A : Type} (l : list A) (x : A) :
  NoDup l -> ~ In x l -> NoDup (l ++ [x]).
Proof.
  induction l as [|y l IH]; simpl; intros Hnd Hx.
  - constructor; [tauto | constructor].
  - inversion Hnd as [|? ? Hy Hl]; subst. constructor.
    + rewrite in_app_iff. simpl. intuition congruence.
    + apply IH; tauto.
Qed.

Lemma NoDup_map_filter {A B : Type} (g : A -> B) (p : A -> bool) (l : list A) :
  NoDup (map g l) -> NoDup (map g (filter p l)).
Proof.
  induction l as [|x l IH]; simpl; intros Hnd; [constructor|].
  inversion Hnd as [|? ? Hx Hl]; subst.
  destruct (p x); simpl; [constructor|]; auto.
  intros Hin. apply Hx. apply in_map_iff in Hin as (y & Hy & Hin).
  apply filter_In in Hin as [Hin _]. apply in_map_iff. now exists y.
Qed.

Lemma NoDup_map_In_eq {A B : Type} (g : A -> B) (l : list A) (x y : A) :
  NoDup (map g l) -> In x l -> In y l -> g x = g y -> x = y.
Proof.
  induction l as [|z l IH]; simpl; intros Hnd Hx Hy Heq; [tauto|].
  inversion Hnd as [|? ? Hz Hl]; subst.
  destruct Hx as [->|Hx], Hy as [->|Hy]; auto.
  - exfalso. apply Hz. rewrite Heq. now apply in_map.
  - exfalso. apply Hz. rewrite <- Heq. now apply in_map.
Qed.

Lemma edge_ok_more (d d' : DB) (r : Relationship) :
  (forall i, In i (map ci_id (cis d)) -> In i (map ci_id (cis d'))) ->
  edge_ok d r -> edge_ok d' r.
Proof. unfold edge_ok. intros Hsub (H1 & H2 & H3 & H4). auto. Qed.

Lemma insert_ci_ok (d d' : DB) (now : Z) (a : ci_attrs) (row : ConfigurationItem) :
  db_ok d -> insert_ci d now a = inr (d', row) -> db_ok d'.
Proof.
  intros [Hpk Hnm Hrpk Hed]. unfold insert_ci.
  destruct (a_ci_name a) as [n|]; [|discriminate].
  destruct (a_ci_type a) as [t|]; [|discriminate].
  destruct (a_status a) as [s|]; [|discriminate].
  destruct (existsb _ _) eqn:Hex; [discriminate|].
  intros [= <- <-]. apply existsb_name_false in Hex.
  constructor; simpl.
  - rewrite map_app. simpl. apply NoDup_snoc; [assumption|].
    apply next_rowid_fresh.
  - rewrite map_app. simpl. now apply NoDup_snoc.
  - assumption.
  - eapply Forall_impl; [|exact Hed]. intros r. apply edge_ok_more. simpl.
    intros i Hi. rewrite map_app, in_app_iff. now left.
Qed.

Lemma replace_row_ids (row : ConfigurationItem) (l : list ConfigurationItem) :
  map ci_id (map (replace_row row) l) = map ci_id l.
Proof.
  induction l as [|c l IH]; simpl; [reflexivity|]. rewrite IH. f_equal.
  unfold replace_row. destruct (Z.eqb_spec (ci_id c) (ci_id row)); congruence.
Qed.

Lemma replace_row_names_in
  (row : ConfigurationItem) (l : list ConfigurationItem) (n : string) :
  In n (map ci_name (map (replace_row row) l)) ->
  (n = ci_name row /\ In (ci_id row) (map ci_id l)) \/
  (exists c, In c l /\ ci_id c <> ci_id row /\ ci_name c = n).
Proof.
  induction l as [|c l IH]; simpl; [tauto|]. unfold replace_row at 1.
  destruct (Z.eqb_spec (ci_id c) (ci_id row)) as [Heq|Hne].
  - intros [<-|Hin]; [left; auto|].
    destruct (IH Hin) as [[-> Hi]|(c' & Hc' & Hne & Hn)].
    + left; auto.
    + right. exists c'. auto.
  - intros [<-|Hin]; [right; exists c; auto|].
    destruct (IH Hin) as [[-> Hi]|(c' & Hc' & Hne' & Hn)].
    + left; auto.
    + right. exists c'. auto.
Qed.

Lemma replace_row_names_NoDup (row : ConfigurationItem) (l : list ConfigurationItem) :
  NoDup (map ci_id l) -> NoDup (map ci_name l) ->
  (forall c, In c l -> ci_id c <> ci_id row -> ci_name c <> ci_name row) ->
  NoDup (map ci_name (map (replace_row row) l)).
Proof.
  induction l as [|c l IH]; simpl; intros Hid Hnm Hfree; [constructor|].
  inversion Hid as [|? ? Hc Hl]; subst. inversion Hnm as [|? ? Hcn Hln]; subst.
  constructor; [|apply IH; auto].
  intros Hin. apply replace_row_names_in in Hin. unfold replace_row in Hin.
  destruct (Z.eqb_spec (ci_id c) (ci_id row)) as [Heq|Hne].
  - destruct Hin as [[_ Hi]|(c' & Hc' & Hne & Hn)].
    + apply Hc. now rewrite Heq.
    + apply (Hfree c'); auto.
  - destruct Hin as [[Hn Hi]|(c' & Hc' & Hne' & Hn)].
    + apply (Hfree c); auto.
    + apply Hcn. rewrite <- Hn. now apply in_map.
Qed.

Lemma update_ci_row_ok
  (d d' : DB) (now : Z) (old row : ConfigurationItem) (a : ci_attrs) :
  db_ok d -> update_ci_row d now old a = inr (d', row) -> db_ok d'.
Proof.
  intros Hok. pose proof Hok as [Hpk Hnm Hrpk Hed]. unfold update_ci_row.
  destruct (attrs_eqb _ _); [intros [= <- <-]; assumption|].
  destruct (a_ci_name a) as [n|]; [|discriminate].
  destruct (a_ci_type a) as [t|]; [|discriminate].
  destruct (a_status a) as [s|]; [|discriminate].
  destruct (existsb _ _) eqn:Hex; [discriminate|].
  intros [= <- <-].
  constructor; simpl.
  - now rewrite replace_row_ids.
  - apply replace_row_names_NoDup; auto. simpl. intros c Hc Hne Hn.
    assert (Ht : existsb (fun c => negb (Z.eqb (ci_id c) (ci_id old))
                                   && String.eqb (ci_name c) n)%bool (cis d) = true).
    { apply existsb_exists. exists c. split; [assumption|].
      apply andb_true_iff. split.
      - apply negb_true_iff. now apply Z.eqb_neq.
      - now apply String.eqb_eq. }
    congruence.
  - assumption.
  - eapply Forall_impl; [|exact Hed]. intros r. apply edge_ok_more. simpl.
    intros i Hi. now rewrite replace_row_ids.
Qed.

Lemma delete_ci_row_ok (d : DB) (c : ConfigurationItem) :
  db_ok d -> db_ok (delete_ci_row d c).
Proof.
  intros [Hpk Hnm Hrpk Hed]. constructor; simpl.
  - now apply NoDup_map_filter.
  - now apply NoDup_map_filter.
  - now apply NoDup_map_filter.
  - apply Forall_forall. intros r Hr. apply filter_In in Hr as [Hr Hnt].
    rewrite Forall_forall in Hed. destruct (Hed r Hr) as (H1 & H2 & H3 & H4).
    unfold touches in Hnt. apply negb_true_iff, orb_false_iff in Hnt as [Hs Ht].
    apply Z.eqb_neq in Hs, Ht.
    assert (Hkeep : forall i, i <> ci_id c -> In i (map ci_id (cis d)) ->
                    In i (map ci_id (filter (fun x => negb (Z.eqb (ci_id x) (ci_id c)))
                                            (cis d)))).
    { intros i Hi Hin. apply in_map_iff in Hin as (x & Hx & Hin).
      apply in_map_iff. exists x. split; [assumption|]. apply filter_In.
      split; [assumption|]. apply negb_true_iff, Z.eqb_neq. congruence. }
    unfold edge_ok. simpl. auto.
Qed.

Lemma delete_rel_row_ok (d : DB) (r : Relationship) :
  db_ok d -> db_ok (delete_rel_row d r).
Proof.
  intros [Hpk Hnm Hrpk Hed]. constructor; simpl; auto.
  - now apply NoDup_map_filter.
  - apply Forall_forall. intros x Hx. apply filter_In in Hx as [Hx _].
    rewrite Forall_forall in Hed. apply (Hed x Hx).
Qed.

Lemma insert_rel_ok (d d' : DB) (s t : Z) (ty : string) (row : Relationship) :
  db_ok d ->
  In s (map ci_id (cis d)) -> In t (map ci_id (cis d)) ->
  In ty ALLOWED_RELATIONSHIP_TYPES ->
  insert_rel d s t ty = inr (d', row) -> db_ok d'.
Proof.
  intros [Hpk Hnm Hrpk Hed] Hs Ht Hty. unfold insert_rel.
  destruct (Z.eqb_spec s t) as [|Hne]; [discriminate|]. intros [= <- <-].
  constructor; simpl; auto.
  - rewrite map_app. simpl. apply NoDup_snoc; [assumption|].
    apply next_rowid_fresh.
  - apply Forall_app. split.
    + eapply Forall_impl; [|exact Hed]. intros r. now apply edge_ok_more.
    + constructor; [|constructor]. unfold edge_ok. simpl. auto.
Qed.

Lemma empty_db_ok : db_ok empty_db.
Proof. constructor; simpl; constructor. Qed.

Lemma create_ci_ok (d : DB) (now : Z) (data : option ci_payload) :
  db_ok d -> db_ok (fst (create_ci d now data)).
Proof.
  intros Hok. unfold create_ci. destruct data as [data|]; [|assumption].
  destruct (missing_required _); [|assumption].
  destruct (insert_ci _ _ _) as [e|[d' row]] eqn:Hins; [assumption|].
  simpl. eapply insert_ci_ok; eassumption.
Qed.

Lemma update_ci_ok (d : DB) (now cid : Z) (data : option ci_payload) :
  db_ok d -> db_ok (fst (update_ci d now cid data)).
Proof.
  intros Hok. unfold update_ci.
  destruct (session_get_ci d cid) as [ci|]; [|assumption].
  destruct data as [data|]; [|assumption].
  match goal with |- context [if ?b then _ else _] => destruct b end;
    [assumption|].
  destruct (update_ci_row _ _ _ _) as [e|[d' row]] eqn:Hupd; [assumption|].
  simpl. eapply update_ci_row_ok; eassumption.
Qed.

Lemma delete_ci_ok (d : DB) (cid : Z) :
  db_ok d -> db_ok (fst (delete_ci d cid)).
Proof.
  intros Hok. unfold delete_ci.
  destruct (session_get_ci d cid) as [ci|]; [|assumption].
  now apply delete_ci_row_ok.
Qed.

Lemma create_relationship_ok (d : DB) (data : option rel_payload) :
  db_ok d -> db_ok (fst (create_relationship d data)).
Proof.
  intros Hok. unfold create_relationship. destruct data as [data|]; [|assumption].
  destruct (missing_keys _); [|assumption].
  destruct (json_get (p_source_ci_id data)) as [|s|]; try assumption.
  destruct (json_get (p_target_ci_id data)) as [|t|]; try assumption.
  destruct (Z.eqb s t); [assumption|].
  destruct (allowed_type _) as [ty|] eqn:Hty; [|assumption].
  apply allowed_type_Some in Hty as [_ Hty].
  destruct (session_get_ci d s) as [cs|] eqn:Hs;
    [|destruct (_ || _)%bool; assumption].
  destruct (session_get_ci d t) as [ct|] eqn:Ht;
    [|destruct (_ || _)%bool; assumption].
  cbn [raised orb].
  destruct (insert_rel d s t ty) as [e|[d' row]] eqn:Hins.
  - destruct e; assumption.
  - simpl. apply session_get_ci_Some in Hs as [Hs <-], Ht as [Ht <-].
    eapply insert_rel_ok; try eassumption; now apply in_map.
Qed.

Lemma delete_relationship_ok (d : DB) (rid : Z) :
  db_ok d -> db_ok (fst (delete_relationship d rid)).
Proof.
  intros Hok. unfold delete_relationship.
  destruct (session_get_rel d rid) as [r|]; [|assumption].
  now apply delete_rel_row_ok.
Qed.

Lemma add_ci_ui_ok (d : DB) (now : Z) (f : ci_form) :
  db_ok d -> db_ok (fst (add_ci_ui d now f)).
Proof.
  intros Hok. unfold add_ci_ui. destruct (f_ci_name f) as [name|]; [|assumption].
  destruct (negb _); [assumption|].
  destruct (first_by_name _ _); [assumption|].
  destruct (insert_ci _ _ _) as [e|[d' row]] eqn:Hins; [assumption|].
  simpl. eapply insert_ci_ok; eassumption.
Qed.

Lemma edit_ci_ui_ok (d : DB) (now cid : Z) (f : ci_form) :
  db_ok d -> db_ok (fst (edit_ci_ui d now cid f)).
Proof.
  intros Hok. unfold edit_ci_ui.
  destruct (session_get_ci d cid) as [ci|]; [|assumption].
  destruct (f_ci_name f) as [name|]; [|assumption].
  destruct (negb _); [assumption|].
  match goal with |- context [if ?b then _ else _] => destruct b end;
    [assumption|].
  destruct (update_ci_row _ _ _ _) as [e|[d' row]] eqn:Hupd; [assumption|].
  simpl. eapply update_ci_row_ok; eassumption.
Qed.

Lemma delete_ci_ui_ok (d : DB) (cid : Z) :
  db_ok d -> db_ok (fst (delete_ci_ui d cid)).
Proof.
  intros Hok. unfold delete_ci_ui.
  destruct (session_get_ci d cid) as [ci|]; [|assumption].
  now apply delete_ci_row_ok.
Qed.

Lemma delete_relationship_ui_ok (d : DB) (rid cid : Z) :
  db_ok d -> db_ok (fst (delete_relationship_ui d rid cid)).
Proof.
  intros Hok. unfold delete_relationship_ui.
  destruct (session_get_rel d rid) as [r|]; [|assumption].
  destruct (_ && _)%bool; [assumption|].
  destruct (session_get_ci d (source_ci_id r)); [|assumption].
  destruct (session_get_ci d (target_ci_id r)); [|assumption].
  now apply delete_rel_row_ok.
Qed.

Lemma seed_db_command_ok (d : DB) (now : Z) :
  db_ok d -> db_ok (seed_db_command d now).
Proof.
  intros Hok. unfold seed_db_command.
  destruct d as [cs rs]. simpl. destruct cs as [|c cs]; [|assumption].
  assert (Hrs : rs = []).
  { destruct Hok as [_ _ _ Hed]. simpl in Hed. destruct rs as [|r rs]; [reflexivity|].
    inversion Hed as [|? ? (_ & Hin & _) _]. contradiction. }
  subst rs. vm_compute.
  constructor; simpl.
  - repeat (constructor; [simpl; intuition lia|]). constructor.
  - repeat (constructor; [simpl; intuition discriminate|]). constructor.
  - repeat (constructor; [simpl; intuition lia|]). constructor.
  - repeat (constructor; [unfold edge_ok; simpl; intuition lia|]). constructor.
Qed.

Lemma step_ok (d : DB) (r : request) : db_ok d -> db_ok (step d r).
Proof.
  intros Hok. destruct r; simpl.
  - now apply create_ci_ok.
  - now apply update_ci_ok.
  - now apply delete_ci_ok.
  - now apply create_relationship_ok.
  - now apply delete_relationship_ok.
  - now apply add_ci_ui_ok.
  - now apply edit_ci_ui_ok.
  - now apply delete_ci_ui_ok.
  - now apply delete_relationship_ui_ok.
  - apply empty_db_ok.
  - now apply seed_db_command_ok.
Qed.

Lemma reachable_ok (d : DB) : reachable d -> db_ok d.
Proof.
  induction 1 as [|d r _ IH]; [apply empty_db_ok | now apply step_ok].
Qed.

Lemma reachable_run (rs : list request) (d : DB) :
  reachable d -> reachable (run rs d).
Proof.
  revert d. induction rs as [|r rs IH]; simpl; intros d Hd; [assumption|].
  apply IH. now constructor.
Qed.

(** ** Claim C1: deleting a CI takes its relationships with it *)




(** ** Claim C2: names stay unique *)

Lemma missing_required_nil (n t s : jfield) :
  truthy (dict_get n) = true -> truthy (dict_get t) = true ->
  truthy (dict_get s) = true ->
  missing_required [("ci_name", n); ("ci_type", t); ("status", s)] = [].
Proof.
  intros Hn Ht Hs. unfold missing_required. simpl. now rewrite Hn, Ht, Hs.
Qed.

(** C2.  In every reachable store the names of the CIs are pairwise
    different: two CIs of the store with the same name are the same row.
    And in any such store, a create request that is complete (name, type and
    status non-empty) and whose name is held by a CI answers 400 "already
    exists", a [DuplicateNameError], and leaves the store as it was. *)
Theorem ci_names_stay_unique (d : DB) :
  reachable d ->
  NoDup (map ci_name (cis d))
  /\ (forall c1 c2, In c1 (cis d) -> In c2 (cis d) ->
        ci_name c1 = ci_name c2 -> c1 = c2)
  /\ (forall r, NoDup (map ci_name (cis (step d r))))
  /\ (forall now data n,
        In n (map ci_name (cis d)) ->
        dict_get (p_ci_name data) = Some n ->
        truthy (dict_get (p_ci_name data)) = true ->
        truthy (dict_get (p_ci_type data)) = true ->
        truthy (dict_get (p_status data)) = true ->
        create_ci d now (Some data)
        = (d, Error (CI_name_already_exists (Some n)) 400)
        /\ fails_with (snd (create_ci d now (Some data))) DuplicateNameError).
Proof.
  intros Hreach. pose proof (reachable_ok d Hreach) as [_ Hnm _ _].
  split; [assumption|]. split; [|split].
  - intros c1 c2 H1 H2 Heq. eapply NoDup_map_In_eq; eassumption.
  - intros r. apply (reachable_ok (step d r)). now constructor.
  - intros now data n Hin Hn Hn1 Ht1 Hs1.
    assert (H : create_ci d now (Some data)
                = (d, Error (CI_name_already_exists (Some n)) 400)).
    { unfold create_ci. rewrite missing_required_nil by assumption.
      unfold insert_ci. simpl. rewrite Hn.
      apply truthy_Some in Ht1 as (t & -> & _), Hs1 as (s & -> & _).
      destruct (existsb _ _) eqn:Hex; [reflexivity|].
      apply existsb_name_false in Hex. contradiction. }
    rewrite H. split; [reflexivity|]. simpl.
    exists (CI_name_already_exists (Some n)), 400. auto.
Qed.

(** ** Claim C6: a refused rename changes nothing *)

Lemma first_by_name_found (d : DB) (c : ConfigurationItem) :
  In c (cis d) -> first_by_name d (Some (ci_name c)) <> None.
Proof.
  intros Hin Hnone. simpl in Hnone.
  apply (find_none _ _ Hnone) in Hin. simpl in Hin.
  rewrite String.eqb_refl in Hin. discriminate.
Qed.

(** C6.  In a reachable store with a CI [cx] of id [x] and a different CI
    [cy] (another id) named [n]: a PUT for [x] whose [ci_name] is [n],
    whatever else it carries, answers 400 "already exists", a
    [DuplicateNameError], and returns the store it was given, so [get_ci x]
    still returns [cx], every field and [last_updated] included.  The edit
    form does the same once its three required fields are filled in, and
    leaves the store as it was in any case. *)
Theorem rename_to_taken_name_changes_nothing
  (d : DB) (now x : Z) (cx cy : ConfigurationItem) (n : string) :
  reachable d ->
  session_get_ci d x = Some cx ->
  In cy (cis d) -> ci_id cy <> x -> ci_name cy = n ->
  (forall data, p_ci_name data = Some (Some n) ->
     update_ci d now x (Some data)
     = (d, Error (CI_name_already_exists (Some n)) 400)
     /\ fails_with (snd (update_ci d now x (Some data))) DuplicateNameError
     /\ get_ci (fst (update_ci d now x (Some data))) x = Json cx 200)
  /\ (forall f, f_ci_name f = Some n ->
        fst (edit_ci_ui d now x f) = d
        /\ (required_given f = true ->
            edit_ci_ui d now x f = (d, Another_CI_has_name n))).
Proof.
  intros Hreach Hx Hcy Hne Hn.
  pose proof (reachable_ok d Hreach) as [_ Hnm _ _].
  pose proof (session_get_ci_Some _ _ _ Hx) as [Hcx Hidx].
  assert (Hdiff : ci_name cx <> n).
  { intros Heq. apply Hne. rewrite <- Hidx. f_equal.
    eapply NoDup_map_In_eq; try eassumption. congruence. }
  split.
  - intros data Hdata.
    assert (H : update_ci d now x (Some data)
                = (d, Error (CI_name_already_exists (Some n)) 400)).
    { unfold update_ci. rewrite Hx, Hdata. simpl opt_eqb.
      apply String.eqb_neq in Hdiff. rewrite String.eqb_sym, Hdiff.
      destruct (first_by_name d (Some n)) eqn:Hf; [reflexivity|].
      exfalso. subst n. now apply (first_by_name_found d cy). }
    rewrite H. simpl. split; [reflexivity|]. split.
    + exists (CI_name_already_exists (Some n)), 400. auto.
    + unfold get_ci. now rewrite Hx.
  - intros f Hf.
    assert (Hclash : existsb (fun c => negb (Z.eqb (ci_id c) x)
                                       && String.eqb (ci_name c) n)%bool (cis d)
                     = true).
    { apply existsb_exists. exists cy. split; [assumption|].
      apply andb_true_iff. split.
      - now apply negb_true_iff, Z.eqb_neq.
      - now apply String.eqb_eq. }
    unfold edit_ci_ui. rewrite Hx, Hf.
    apply String.eqb_neq in Hdiff. rewrite Hdiff, Hclash.
    destruct (required_given f); simpl; split; auto; discriminate.
Qed.

Lemma A_depends_on_B_reachable : reachable A_depends_on_B.
Proof. apply reachable_run. constructor. Qed.



Lemma ci_names_stay_unique_witness :
  reachable A_depends_on_B
  /\ NoDup (map ci_name (cis A_depends_on_B))
  /\ (forall c1 c2, In c1 (cis A_depends_on_B) -> In c2 (cis A_depends_on_B) ->
        ci_name c1 = ci_name c2 -> c1 = c2)
  /\ (forall r, NoDup (map ci_name (cis (step A_depends_on_B r))))
  /\ (forall now data n,
        In n (map ci_name (cis A_depends_on_B)) ->
        dict_get (p_ci_name data) = Some n ->
        truthy (dict_get (p_ci_name data)) = true ->
        truthy (dict_get (p_ci_type data)) = true ->
        truthy (dict_get (p_status data)) = true ->
        create_ci A_depends_on_B now (Some data)
        = (A_depends_on_B, Error (CI_name_already_exists (Some n)) 400)
        /\ fails_with (snd (create_ci A_depends_on_B now (Some data)))
                      DuplicateNameError).
Proof.
  split; [exact A_depends_on_B_reachable|].
  apply (ci_names_stay_unique A_depends_on_B).
  exact A_depends_on_B_reachable.
Defined.

Lemma rename_to_taken_name_changes_nothing_witness :
  let cx := mkCI 1 "A" "Server" "Active" None None None 10 in
  (forall data, p_ci_name data = Some (Some "B") ->
     update_ci A_depends_on_B 12 1 (Some data)
     = (A_depends_on_B, Error (CI_name_already_exists (Some "B")) 400)
     /\ fails_with (snd (update_ci A_depends_on_B 12 1 (Some data)))
                   DuplicateNameError
     /\ get_ci (fst (update_ci A_depends_on_B 12 1 (Some data))) 1 = Json cx 200)
  /\ (forall f, f_ci_name f = Some "B" ->
        fst (edit_ci_ui A_depends_on_B 12 1 f) = A_depends_on_B
        /\ (required_given f = true ->
            edit_ci_ui A_depends_on_B 12 1 f
            = (A_depends_on_B, Another_CI_has_name "B"))).
Proof.
  intros cx.
  apply (rename_to_taken_name_changes_nothing A_depends_on_B 12 1 cx
           (mkCI 2 "B" "Database" "Active" None None None 11) "B").
  - exact A_depends_on_B_reachable.
  - reflexivity.
  - vm_compute. tauto.
  - simpl. lia.
  - reflexivity.
Defined.

(** ** Claim C5: relationships of a CI, by direction *)

(** C5 as stated fails: ["SOURCE"] is none of the three direction values,
    yet for CI 1 of the scenario store the endpoint answers 200 with the
    relationship A -> B instead of a [ValidationError]. *)
Lemma direction_outside_the_set_is_not_always_refused :
  ~ (forall (d : DB) (cid : Z) (dir : string),
       In cid (map ci_id (cis d)) ->
       ~ In dir direction_values ->
       fails_with (get_relationships_for_ci d cid (Some dir)) ValidationError).
Proof.
  intros H. specialize (H A_depends_on_B 1 "SOURCE").
  destruct H as (e & code & Heq & _).
  - vm_compute. tauto.
  - unfold direction_values. simpl. intuition discriminate.
  - vm_compute in Heq. discriminate.
Qed.

Lemma rels_NoDup (d : DB) : db_ok d -> NoDup (rels d).
Proof. intros [_ _ Hrpk _]. exact (NoDup_map_inv _ _ Hrpk). Qed.

Lemma filter_lists_exactly (d : DB) (p : Relationship -> bool)
      (P : Relationship -> Prop) :
  db_ok d -> (forall r, p r = true <-> P r) ->
  lists_exactly d (Json (map (relationship_to_dict d) (filter p (rels d))) 200) P.
Proof.
  intros Hok Hp. exists (filter p (rels d)). split; [reflexivity|]. split.
  - apply NoDup_filter. now apply rels_NoDup.
  - intros r. rewrite filter_In, Hp. tauto.
Qed.

Lemma filter_none {A : Type} (p : A -> bool) (l : list A) :
  (forall x, In x l -> p x = false) -> filter p l = [].
Proof.
  induction l as [|x l IH]; simpl; intros H; [reflexivity|].
  rewrite (H x (or_introl eq_refl)). apply IH. auto.
Qed.

Lemma direction_not_recognised (dir : string) :
  ~ In (lower dir) direction_values ->
  String.eqb (direction_arg (Some dir)) "source" = false
  /\ String.eqb (direction_arg (Some dir)) "target" = false
  /\ String.eqb (direction_arg (Some dir)) "all" = false.
Proof.
  unfold direction_values, direction_arg. simpl. intros H.
  repeat split; apply String.eqb_neq; intros Heq; apply H; rewrite Heq; auto.
Qed.

(** C5, amended.  In a reachable store, for a CI [cid] of the store:
    direction ["source"] lists exactly the relationships whose source is
    [cid], ["target"] exactly those whose target is [cid], ["all"] exactly
    those with [cid] at either end, each once; a direction whose lower-cased
    form is none of the three is answered 400, a [ValidationError]; and if no
    relationship has [cid] as target, then after a relationship [a -> cid] of
    an allowed type is created for another CI [a] of the store, direction
    ["target"] lists that one relationship, whose source is [a]. *)
Theorem relationships_of_a_ci_by_direction (d : DB) (cid : Z) :
  reachable d ->
  In cid (map ci_id (cis d)) ->
  lists_exactly d (get_relationships_for_ci d cid (Some "source"))
                (fun r => source_ci_id r = cid)
  /\ lists_exactly d (get_relationships_for_ci d cid (Some "target"))
                   (fun r => target_ci_id r = cid)
  /\ lists_exactly d (get_relationships_for_ci d cid (Some "all"))
                   (fun r => source_ci_id r = cid \/ target_ci_id r = cid)
  /\ (forall dir, ~ In (lower dir) direction_values ->
        get_relationships_for_ci d cid (Some dir) = Error Invalid_direction 400
        /\ fails_with (get_relationships_for_ci d cid (Some dir)) ValidationError)
  /\ (forall a ty,
        In a (map ci_id (cis d)) -> a <> cid ->
        In ty ALLOWED_RELATIONSHIP_TYPES ->
        (forall r, In r (rels d) -> target_ci_id r <> cid) ->
        exists d' r,
          create_relationship d (rel_request a cid ty)
          = (d', Json (relationship_to_dict d' r) 201)
          /\ get_relationships_for_ci d' cid (Some "target")
             = Json [relationship_to_dict d' r] 200
          /\ source_ci_id r = a /\ target_ci_id r = cid
          /\ relationship_type r = ty).
Proof.
  intros Hreach Hin. pose proof (reachable_ok d Hreach) as Hok.
  destruct (session_get_ci d cid) as [c|] eqn:Hc;
    [|apply session_get_ci_None in Hc; contradiction].
  unfold get_relationships_for_ci. rewrite Hc.
  split; [|split; [|split; [|split]]].
  - apply filter_lists_exactly; [assumption|]. intros r. apply Z.eqb_eq.
  - apply filter_lists_exactly; [assumption|]. intros r. apply Z.eqb_eq.
  - apply filter_lists_exactly; [assumption|]. intros r.
    rewrite orb_true_iff, !Z.eqb_eq. tauto.
  - intros dir Hdir. apply direction_not_recognised in Hdir as (H1 & H2 & H3).
    rewrite H1, H2, H3. split; [reflexivity|].
    exists Invalid_direction, 400. auto.
  - intros a ty Ha Hne Hty Hnone.
    destruct (session_get_ci d a) as [ca|] eqn:Hca;
      [|apply session_get_ci_None in Hca; contradiction].
    set (row := mkRel (next_rowid (map rel_id (rels d))) a cid ty).
    set (d' := mkDB (cis d) (rels d ++ [row])).
    exists d', row.
    assert (Hcreate : create_relationship d (rel_request a cid ty)
                      = (d', Json (relationship_to_dict d' row) 201)).
    { unfold create_relationship, rel_request, missing_keys.
      cbn [p_source_ci_id p_target_ci_id p_relationship_type json_get
           filter map snd fst].
      apply Z.eqb_neq in Hne. rewrite Hne.
      assert (Hal : allowed_type (JStr ty) = Some ty)
        by now apply allowed_type_Some.
      rewrite Hal, Hca, Hc. unfold insert_rel. now rewrite Hne. }
    split; [exact Hcreate|]. split; [|repeat split].
    assert (Hc' : session_get_ci d' cid = Some c) by exact Hc.
    rewrite Hc'. simpl. rewrite filter_app. simpl. rewrite Z.eqb_refl.
    rewrite filter_none; [reflexivity|].
    intros r Hr. apply Z.eqb_neq. now apply Hnone.
Qed.

Lemma relationships_of_a_ci_by_direction_witness :
  let d := run [POST_api_ci 10 (ci_request "A" "Server");
                POST_api_ci 11 (ci_request "B" "Database")] empty_db in
  reachable d
  /\ In 2 (map ci_id (cis d))
  /\ lists_exactly d (get_relationships_for_ci d 2 (Some "source"))
                   (fun r => source_ci_id r = 2)
  /\ (forall dir, ~ In (lower dir) direction_values ->
        get_relationships_for_ci d 2 (Some dir) = Error Invalid_direction 400
        /\ fails_with (get_relationships_for_ci d 2 (Some dir)) ValidationError)
  /\ exists d' r,
       create_relationship d (rel_request 1 2 "Depends on")
       = (d', Json (relationship_to_dict d' r) 201)
       /\ get_relationships_for_ci d' 2 (Some "target")
          = Json [relationship_to_dict d' r] 200
       /\ source_ci_id r = 1 /\ target_ci_id r = 2
       /\ relationship_type r = "Depends on".
Proof.
  intros d.
  assert (Hreach : reachable d) by (apply reachable_run; constructor).
  assert (Hin : In 2 (map ci_id (cis d))) by (vm_compute; tauto).
  destruct (relationships_of_a_ci_by_direction d 2 Hreach Hin)
    as (Hs & _ & _ & Hbad & Hnew).
  split; [exact Hreach|]. split; [exact Hin|]. split; [exact Hs|].
  split; [exact Hbad|].
  apply (Hnew 1 "Depends on").
  - vm_compute. tauto.
  - lia.
  - simpl. tauto.
  - vm_compute. tauto.
Defined.

(** ** Claim C4: listing CIs *)

(** *** [LIKE] with a wildcard-free search string is containment *)


Lemma append_assoc (a b c : string) :
  String.append (String.append a b) c = String.append a (String.append b c).
Proof. induction a as [|x a IH]; simpl; [reflexivity | now rewrite IH]. Qed.









(** *** [ORDER BY ci_name] *)



Lemma insert_by_name_In (c x : ConfigurationItem) (l : list ConfigurationItem) :
  In x (insert_by_name c l) <-> x = c \/ In x l.
Proof.
  induction l as [|y l IH]; simpl.
  - intuition.
  - destruct (String.ltb (ci_name c) (ci_name y)); simpl; [intuition|].
    rewrite IH. intuition.
Qed.




(** *** The WHERE clauses *)








(** The rows [get_all_cis] returns are not ordered by name either: on the
    seeded store, unfiltered, WebServer-Prod-01 comes first. *)
Lemma get_all_cis_keeps_table_order :
  exists l, get_all_cis seeded no_filter = Json l 200
            /\ map ci_name l
               = ["WebServer-Prod-01"; "AppServer-Prod-01"; "CustomerDB-Prod-01";
                  "BillingApp-Prod"; "MainWebsite-Prod"; "OfficeRouter-HQ";
                  "AuthService-Prod"]
            /\ ~ by_name_ascending l.
Proof.
  eexists. split; [reflexivity|]. split; [reflexivity|].
  intros Hs. vm_compute in Hs. apply Sorted_inv in Hs as [_ Hhd].
  apply HdRel_inv in Hhd. vm_compute in Hhd. discriminate.
Qed.



(** * Further properties of the code *)

(** ** The to-do list *)

Lemma lstrip_split (s : string) :
  exists pre,
    s = String.append pre (lstrip s)
    /\ all_space pre = true /\ head_space (lstrip s) = false.
Proof.
  induction s as [|c s (pre & Heq & Hpre & Hhd)]; simpl.
  - now exists "".
  - destruct (is_space c) eqn:Hc.
    + exists (String c pre). simpl. rewrite Hc, Hpre. now rewrite <- Heq.
    + exists "". simpl. auto.
Qed.

Lemma rstrip_split (s : string) :
  exists post,
    s = String.append (rstrip s) post
    /\ all_space post = true /\ last_space (rstrip s) = false.
Proof.
  induction s as [|c s (post & Heq & Hpost & Hlast)]; simpl.
  - now exists "".
  - destruct (rstrip s) as [|a r] eqn:Hr.
    + simpl in Heq. subst post. destruct (is_space c) eqn:Hc.
      * exists (String c s). simpl. now rewrite Hc, Hpost.
      * exists s. simpl. auto.
    + exists post.
      split; [|split]; [simpl; f_equal; exact Heq | assumption | exact Hlast].
Qed.

Lemma rstrip_head (s : string) :
  head_space s = false -> head_space (rstrip s) = false.
Proof.
  destruct s as [|c s]; simpl; [reflexivity|]. intros Hc.
  destruct (rstrip s); [rewrite Hc|]; simpl; auto.
Qed.

Lemma all_space_append (a b : string) :
  all_space (String.append a b) = (all_space a && all_space b)%bool.
Proof.
  induction a as [|c a IH]; simpl; [reflexivity|].
  now rewrite IH, andb_assoc.
Qed.

Lemma tidy_not_all_space (t : string) :
  head_space t = false -> all_space t = true -> t = "".
Proof.
  destruct t as [|c t]; simpl; [reflexivity|]. intros Hc H.
  rewrite Hc in H. discriminate.
Qed.

Lemma strip_split (s : string) :
  exists pre post,
    s = String.append pre (String.append (strip s) post)
    /\ all_space pre = true /\ all_space post = true
    /\ head_space (strip s) = false /\ last_space (strip s) = false.
Proof.
  destruct (lstrip_split s) as (pre & Hl & Hpre & Hhd).
  destruct (rstrip_split (lstrip s)) as (post & Hr & Hpost & Hlast).
  exists pre, post. unfold strip. rewrite <- Hr.
  repeat split; auto. now apply rstrip_head.
Qed.

Lemma strip_empty_iff (s : string) : strip s = "" <-> all_space s = true.
Proof.
  destruct (strip_split s) as (pre & post & Heq & Hpre & Hpost & Hhd & _).
  split.
  - intros H0. rewrite H0 in Heq. simpl in Heq.
    rewrite Heq, all_space_append, Hpre, Hpost. reflexivity.
  - intros Hall. apply tidy_not_all_space; [assumption|].
    rewrite Heq, !all_space_append in Hall.
    apply andb_true_iff in Hall as [_ Hall].
    now apply andb_true_iff in Hall as [Hall _].
Qed.

Lemma add_todo_nonblank (todos : list string) (s : string) :
  all_space s = false ->
  add_todo todos (Some s) = (todos ++ [strip s], Redirect_to_index).
Proof.
  intros Hall.
  assert (Hne : strip s <> "").
  { intros H0. apply strip_empty_iff in H0. congruence. }
  unfold add_todo. apply String.eqb_neq in Hne. now rewrite Hne.
Qed.

(** X1.  [add_todo] stores the text with the white space at its two ends
    removed, and only that: the submitted text is white space, then the
    stored item, then white space.  A text that is white space throughout,
    the empty text and a missing field among them, adds nothing and the page
    is rendered again; any other text is appended at the end of the list,
    non-empty and with no white space at either end, and the reply is a
    redirect. *)
Theorem add_todo_appends_the_stripped_text (todos : list string) (s : string) :
  (exists pre post,
     s = String.append pre (String.append (strip s) post)
     /\ all_space pre = true /\ all_space post = true)
  /\ add_todo todos None = (todos, Render_index todos)
  /\ (all_space s = true ->
      add_todo todos (Some s) = (todos, Render_index todos))
  /\ (all_space s = false ->
      add_todo todos (Some s) = (todos ++ [strip s], Redirect_to_index)
      /\ tidy (strip s)).
Proof.
  destruct (strip_split s) as (pre & post & Heq & Hpre & Hpost & Hhd & Hlast).
  split; [now exists pre, post|]. split; [reflexivity|]. split.
  - intros Hall. apply strip_empty_iff in Hall. unfold add_todo.
    now rewrite Hall.
  - intros Hall. split; [now apply add_todo_nonblank|].
    repeat split; try assumption.
    intros H0. apply strip_empty_iff in H0. congruence.
Qed.

Lemma add_todo_appends_the_stripped_text_witness :
  add_todo ["a"] (Some "  buy milk  ") = (["a"; "buy milk"], Redirect_to_index)
  /\ tidy "buy milk".
Proof.
  apply (add_todo_appends_the_stripped_text ["a"] "  buy milk  ").
  reflexivity.
Defined.

Lemma pop_cons {A : Type} (x : A) (l : list A) (i : nat) :
  pop (S i) (x :: l) = x :: pop i l.
Proof. reflexivity. Qed.

Lemma pop_In {A : Type} (i : nat) (l : list A) (x : A) :
  In x (pop i l) -> In x l.
Proof.
  revert i. induction l as [|y l IH]; intros i.
  - destruct i; simpl; tauto.
  - destruct i as [|i].
    + unfold pop. simpl. tauto.
    + rewrite pop_cons. simpl. intros [H|H]; [auto | right; eauto].
Qed.

Lemma pop_length {A : Type} (i : nat) (l : list A) :
  (i < List.length l)%nat -> S (List.length (pop i l)) = List.length l.
Proof.
  revert i. induction l as [|y l IH]; intros i Hi; simpl in Hi; [lia|].
  destruct i as [|i]; [reflexivity|]. rewrite pop_cons. simpl.
  rewrite IH; [reflexivity | lia].
Qed.

Lemma pop_nth_before {A : Type} (i j : nat) (l : list A) :
  (j < i)%nat -> nth_error (pop i l) j = nth_error l j.
Proof.
  revert i j. induction l as [|y l IH]; intros i j Hj.
  - destruct i; [lia|]. unfold pop. simpl. reflexivity.
  - destruct i as [|i]; [lia|]. rewrite pop_cons.
    destruct j as [|j]; simpl; [reflexivity|]. apply IH. lia.
Qed.

Lemma pop_nth_after {A : Type} (i j : nat) (l : list A) :
  (i <= j)%nat -> nth_error (pop i l) j = nth_error l (S j).
Proof.
  revert i j. induction l as [|y l IH]; intros i j Hj.
  - destruct i, j; reflexivity.
  - destruct i as [|i]; [reflexivity|]. rewrite pop_cons.
    destruct j as [|j]; [lia|]. simpl. apply IH. lia.
Qed.

Lemma pop_snoc {A : Type} (l : list A) (x : A) :
  pop (List.length l) (l ++ [x]) = l.
Proof.
  induction l as [|y l IH]; [reflexivity|]. simpl List.length.
  change ((y :: l) ++ [x]) with (y :: (l ++ [x])). rewrite pop_cons.
  now rewrite IH.
Qed.

(** X2.  [remove_todo] with an index inside the list removes the item at that
    index and no other: the list is one shorter, the items before the index
    stay where they were and each later item moves up by one.  With an index
    outside the list (negative, or the length or more) the list is left as it
    was.  The reply is a redirect either way. *)
Theorem remove_todo_drops_the_item_at_the_index (todos : list string) (i : Z) :
  snd (remove_todo todos i) = Redirect_to_index
  /\ (0 <= i < Z.of_nat (List.length todos) ->
      S (List.length (fst (remove_todo todos i))) = List.length todos
      /\ (forall j, (j < Z.to_nat i)%nat ->
            nth_error (fst (remove_todo todos i)) j = nth_error todos j)
      /\ (forall j, (Z.to_nat i <= j)%nat ->
            nth_error (fst (remove_todo todos i)) j = nth_error todos (S j)))
  /\ (~ 0 <= i < Z.of_nat (List.length todos) ->
      fst (remove_todo todos i) = todos).
Proof.
  unfold remove_todo.
  destruct (Z.leb_spec 0 i) as [H0|H0], (Z.ltb_spec i (Z.of_nat (List.length todos)))
    as [H1|H1]; simpl; (split; [reflexivity|]); split; try lia; try reflexivity.
  intros _. split; [|split].
  - apply pop_length. lia.
  - intros j Hj. now apply pop_nth_before.
  - intros j Hj. now apply pop_nth_after.
Qed.

Lemma remove_todo_drops_the_item_at_the_index_witness :
  S (List.length (fst (remove_todo ["Item 1"; "Item 2"; "Item 3"] 1))) = 3%nat
  /\ (forall j, (j < 1)%nat ->
        nth_error (fst (remove_todo ["Item 1"; "Item 2"; "Item 3"] 1)) j
        = nth_error ["Item 1"; "Item 2"; "Item 3"] j)
  /\ (forall j, (1 <= j)%nat ->
        nth_error (fst (remove_todo ["Item 1"; "Item 2"; "Item 3"] 1)) j
        = nth_error ["Item 1"; "Item 2"; "Item 3"] (S j)).
Proof.
  apply (remove_todo_drops_the_item_at_the_index ["Item 1"; "Item 2"; "Item 3"] 1).
  simpl. lia.
Defined.

(** X3.  Whatever requests the to-do pages have served since the list was
    empty, no item of the list is empty and none begins or ends with white
    space. *)
Theorem todos_are_always_tidy (rs : list todo_request) :
  Forall tidy (fold_left todo_step rs []).
Proof.
  assert (H : forall l, Forall tidy l -> Forall tidy (fold_left todo_step rs l)).
  { induction rs as [|r rs IH]; simpl; intros l Hl; [assumption|].
    apply IH. destruct r as [field|i]; simpl.
    - unfold add_todo.
      destruct (String.eqb_spec (strip match field with Some s => s | None => "" end) "")
        as [He|Hne]; simpl; [assumption|].
      apply Forall_app. split; [assumption|]. constructor; [|constructor].
      destruct (strip_split match field with Some s => s | None => "" end)
        as (pre & post & _ & _ & _ & Hhd & Hlast).
      now repeat split.
    - unfold remove_todo. destruct (_ && _)%bool; simpl; [|assumption].
      rewrite Forall_forall in *. intros x Hx. apply Hl. eapply pop_In, Hx. }
  apply H. constructor.
Qed.

(** X4.  Adding an item and then removing the last index gives back the list
    as it was before: the new item is the last one. *)
Theorem add_then_remove_last_restores_the_list (todos : list string) (s : string) :
  all_space s = false ->
  fst (remove_todo (fst (add_todo todos (Some s)))
                   (Z.of_nat (List.length todos))) = todos.
Proof.
  intros Hs. rewrite (add_todo_nonblank todos s Hs). simpl. unfold remove_todo.
  rewrite length_app. simpl.
  destruct (Z.leb_spec 0 (Z.of_nat (List.length todos))) as [_|]; [|lia].
  destruct (Z.ltb_spec (Z.of_nat (List.length todos))
                       (Z.of_nat (List.length todos + 1))) as [_|]; [|lia].
  simpl. rewrite Nat2Z.id. apply pop_snoc.
Qed.

Lemma add_then_remove_last_restores_the_list_witness :
  fst (remove_todo (fst (add_todo ["a"; "b"] (Some " c")))
                   (Z.of_nat (List.length ["a"; "b"]))) = ["a"; "b"].
Proof.
  apply (add_then_remove_last_restores_the_list ["a"; "b"] " c"). reflexivity.
Defined.

(** ** Keys and references in the reachable stores *)

Lemma find_by_key {A : Type} (key : A -> Z) (l : list A) (x : A) :
  NoDup (map key l) -> In x l ->
  find (fun y => Z.eqb (key y) (key x)) l = Some x.
Proof.
  induction l as [|y l IH]; simpl; intros Hnd Hin; [tauto|].
  inversion Hnd as [|? ? Hy Hl]; subst.
  destruct Hin as [->|Hin]; [now rewrite Z.eqb_refl|].
  destruct (Z.eqb_spec (key y) (key x)) as [Heq|_]; [|auto].
  exfalso. apply Hy. rewrite Heq. now apply in_map.
Qed.

Lemma filter_all {A : Type} (p : A -> bool) (l : list A) :
  (forall x, In x l -> p x = true) -> filter p l = l.
Proof.
  induction l as [|x l IH]; simpl; intros H; [reflexivity|].
  rewrite (H x (or_introl eq_refl)). f_equal. apply IH. auto.
Qed.

Lemma filter_snoc_fresh {A : Type} (p : A -> bool) (l : list A) (x : A) :
  (forall y, In y l -> p y = true) -> p x = false -> filter p (l ++ [x]) = l.
Proof.
  intros Hl Hx. rewrite filter_app. simpl. rewrite Hx, app_nil_r.
  now apply filter_all.
Qed.

Lemma fold_max_nonneg (ids : list Z) : 0 <= fold_right Z.max 0 ids.
Proof. induction ids as [|x ids IH]; simpl; lia. Qed.

Lemma fold_max_app (a b : list Z) :
  fold_right Z.max 0 (a ++ b)
  = Z.max (fold_right Z.max 0 a) (fold_right Z.max 0 b).
Proof.
  induction a as [|x a IH]; simpl.
  - pose proof (fold_max_nonneg b). lia.
  - rewrite IH. lia.
Qed.

Lemma next_rowid_snoc (ids : list Z) :
  next_rowid (ids ++ [next_rowid ids]) = next_rowid ids + 1.
Proof.
  unfold next_rowid. rewrite fold_max_app. simpl.
  pose proof (fold_max_nonneg ids). lia.
Qed.

Lemma db_eta (d : DB) : mkDB (cis d) (rels d) = d.
Proof. now destruct d. Qed.

Lemma relationships_of_store_have_ends (d : DB) (r : Relationship) :
  reachable d -> In r (rels d) ->
  exists cs ct,
    session_get_ci d (source_ci_id r) = Some cs
    /\ session_get_ci d (target_ci_id r) = Some ct.
Proof.
  intros Hreach Hr. pose proof (reachable_ok d Hreach) as [_ _ _ Hed].
  rewrite Forall_forall in Hed. destruct (Hed r Hr) as (_ & Hs & Ht & _).
  destruct (session_get_ci d (source_ci_id r)) as [cs|] eqn:Hcs;
    [|apply session_get_ci_None in Hcs; contradiction].
  destruct (session_get_ci d (target_ci_id r)) as [ct|] eqn:Hct;
    [|apply session_get_ci_None in Hct; contradiction].
  now exists cs, ct.
Qed.

(** X5.  In every reachable store a relationship joins two CIs that are in
    the store and are different, and its type is one of the allowed five; so
    [relationship_to_dict] always finds the two names, and the ["N/A"]
    fallback is never taken. *)
Theorem relationships_join_existing_cis (d : DB) (r : Relationship) :
  reachable d -> In r (rels d) ->
  exists cs ct,
    session_get_ci d (source_ci_id r) = Some cs
    /\ session_get_ci d (target_ci_id r) = Some ct
    /\ ci_id cs <> ci_id ct
    /\ In (relationship_type r) ALLOWED_RELATIONSHIP_TYPES
    /\ relationship_to_dict d r
       = mkRelDict (rel_id r) (ci_id cs) (ci_name cs) (ci_id ct) (ci_name ct)
                   (relationship_type r).
Proof.
  intros Hreach Hr. pose proof (reachable_ok d Hreach) as [_ _ _ Hed].
  rewrite Forall_forall in Hed. destruct (Hed r Hr) as (Hne & Hs & Ht & Hty).
  destruct (session_get_ci d (source_ci_id r)) as [cs|] eqn:Hcs;
    [|apply session_get_ci_None in Hcs; contradiction].
  destruct (session_get_ci d (target_ci_id r)) as [ct|] eqn:Hct;
    [|apply session_get_ci_None in Hct; contradiction].
  exists cs, ct. unfold relationship_to_dict, name_or_NA. rewrite Hcs, Hct.
  apply session_get_ci_Some in Hcs as [_ Hcs], Hct as [_ Hct].
  rewrite Hcs, Hct. repeat split; auto.
Qed.

Lemma relationships_join_existing_cis_witness :
  exists cs ct,
    session_get_ci A_depends_on_B 1 = Some cs
    /\ session_get_ci A_depends_on_B 2 = Some ct
    /\ ci_id cs <> ci_id ct
    /\ In "Depends on" ALLOWED_RELATIONSHIP_TYPES
    /\ relationship_to_dict A_depends_on_B (mkRel 1 1 2 "Depends on")
       = mkRelDict 1 (ci_id cs) (ci_name cs) (ci_id ct) (ci_name ct) "Depends on".
Proof.
  apply (relationships_join_existing_cis A_depends_on_B (mkRel 1 1 2 "Depends on")).
  - exact A_depends_on_B_reachable.
  - vm_compute. tauto.
Defined.

(** X6.  In every reachable store no two CIs share an id and no two
    relationships share an id, so a look-up by id returns the very row: for a
    CI [c] of the store [get_ci] on its id answers 200 with [c], and for a
    relationship [r] of the store [get_relationship] on its id answers 200
    with [r] rendered. *)
Theorem rows_are_found_by_their_id (d : DB) :
  reachable d ->
  NoDup (map ci_id (cis d))
  /\ NoDup (map rel_id (rels d))
  /\ (forall c, In c (cis d) -> get_ci d (ci_id c) = Json c 200)
  /\ (forall r, In r (rels d) ->
        get_relationship d (rel_id r) = Json (relationship_to_dict d r) 200).
Proof.
  intros Hreach. pose proof (reachable_ok d Hreach) as [Hpk _ Hrpk _].
  repeat split; try assumption.
  - intros c Hc. unfold get_ci, session_get_ci.
    now rewrite (find_by_key ci_id _ _ Hpk Hc).
  - intros r Hr. unfold get_relationship, session_get_rel.
    now rewrite (find_by_key rel_id _ _ Hrpk Hr).
Qed.

Lemma rows_are_found_by_their_id_witness :
  NoDup (map ci_id (cis seeded))
  /\ NoDup (map rel_id (rels seeded))
  /\ (forall c, In c (cis seeded) -> get_ci seeded (ci_id c) = Json c 200)
  /\ (forall r, In r (rels seeded) ->
        get_relationship seeded (rel_id r)
        = Json (relationship_to_dict seeded r) 200).
Proof.
  apply (rows_are_found_by_their_id seeded). apply reachable_run. constructor.
Defined.

(** ** Relationships: create, read, delete *)

Lemma create_relationship_done
  (d : DB) (s t : Z) (ty : string) (cs ct : ConfigurationItem) :
  session_get_ci d s = Some cs -> session_get_ci d t = Some ct ->
  s <> t -> In ty ALLOWED_RELATIONSHIP_TYPES ->
  create_relationship d (rel_request s t ty)
  = (mkDB (cis d) (rels d ++ [mkRel (next_rowid (map rel_id (rels d))) s t ty]),
     Json (mkRelDict (next_rowid (map rel_id (rels d)))
                     s (ci_name cs) t (ci_name ct) ty) 201).
Proof.
  intros Hcs Hct Hne Hty.
  unfold create_relationship, rel_request, missing_keys.
  cbn [p_source_ci_id p_target_ci_id p_relationship_type json_get
       filter map snd fst].
  apply Z.eqb_neq in Hne. rewrite Hne.
  assert (Hal : allowed_type (JStr ty) = Some ty) by now apply allowed_type_Some.
  rewrite Hal, Hcs, Hct. unfold insert_rel. rewrite Hne.
  unfold relationship_to_dict, name_or_NA. simpl.
  change (session_get_ci (mkDB (cis d) _) s) with (session_get_ci d s).
  change (session_get_ci (mkDB (cis d) _) t) with (session_get_ci d t).
  now rewrite Hcs, Hct.
Qed.

(** X7.  A relationship request between two different CIs of the store with
    an allowed type succeeds: 201, a new relationship with an id no other
    relationship has and the names of the two CIs in the reply, and
    [get_relationship] on that id returns the same body.  No check for an
    identical relationship is made: the same request made again succeeds
    again, under the next id, and the store then holds both. *)
Theorem create_relationship_succeeds_also_twice
  (d : DB) (s t : Z) (ty : string) (cs ct : ConfigurationItem) :
  session_get_ci d s = Some cs -> session_get_ci d t = Some ct ->
  s <> t -> In ty ALLOWED_RELATIONSHIP_TYPES ->
  let n := next_rowid (map rel_id (rels d)) in
  let body := mkRelDict n s (ci_name cs) t (ci_name ct) ty in
  exists d' d'',
    create_relationship d (rel_request s t ty) = (d', Json body 201)
    /\ ~ In n (map rel_id (rels d))
    /\ cis d' = cis d
    /\ rels d' = rels d ++ [mkRel n s t ty]
    /\ get_relationship d' n = Json body 200
    /\ create_relationship d' (rel_request s t ty)
       = (d'', Json (mkRelDict (n + 1) s (ci_name cs) t (ci_name ct) ty) 201)
    /\ rels d'' = rels d ++ [mkRel n s t ty; mkRel (n + 1) s t ty].
Proof.
  intros Hcs Hct Hne Hty n body.
  set (d' := mkDB (cis d) (rels d ++ [mkRel n s t ty])).
  assert (Hfresh : ~ In n (map rel_id (rels d))) by apply next_rowid_fresh.
  assert (Hn' : next_rowid (map rel_id (rels d')) = n + 1).
  { simpl. rewrite map_app. simpl. apply next_rowid_snoc. }
  exists d', (mkDB (cis d) (rels d' ++ [mkRel (n + 1) s t ty])).
  split; [now apply create_relationship_done|]. split; [exact Hfresh|].
  split; [reflexivity|]. split; [reflexivity|]. split; [|split].
  - unfold get_relationship, session_get_rel. simpl.
    rewrite find_snoc_fresh.
    + unfold relationship_to_dict, name_or_NA. simpl.
      change (session_get_ci d' s) with (session_get_ci d s).
      change (session_get_ci d' t) with (session_get_ci d t).
      now rewrite Hcs, Hct.
    + intros y Hy. apply Z.eqb_neq. intros Heq. apply Hfresh.
      rewrite <- Heq. now apply in_map.
    + apply Z.eqb_refl.
  - rewrite <- Hn'. apply (create_relationship_done d' s t ty cs ct); assumption.
  - simpl. now rewrite <- app_assoc.
Qed.

Lemma create_relationship_succeeds_also_twice_witness :
  let cs := mkCI 1 "A" "Server" "Active" None None None 10 in
  let ct := mkCI 2 "B" "Database" "Active" None None None 11 in
  exists d' d'',
    create_relationship A_depends_on_B (rel_request 1 2 "Depends on")
    = (d', Json (mkRelDict 2 1 "A" 2 "B" "Depends on") 201)
    /\ ~ In 2 (map rel_id (rels A_depends_on_B))
    /\ cis d' = cis A_depends_on_B
    /\ rels d' = rels A_depends_on_B ++ [mkRel 2 1 2 "Depends on"]
    /\ get_relationship d' 2 = Json (mkRelDict 2 1 "A" 2 "B" "Depends on") 200
    /\ create_relationship d' (rel_request 1 2 "Depends on")
       = (d'', Json (mkRelDict (2 + 1) 1 "A" 2 "B" "Depends on") 201)
    /\ rels d'' = rels A_depends_on_B
                  ++ [mkRel 2 1 2 "Depends on"; mkRel (2 + 1) 1 2 "Depends on"].
Proof.
  intros cs ct.
  apply (create_relationship_succeeds_also_twice A_depends_on_B 1 2 "Depends on"
           cs ct); try reflexivity.
  - lia.
  - simpl. tauto.
Defined.

(** X8.  For an id that is a signed 64-bit integer: [delete_relationship] on
    the id of a relationship of the store answers 204 and removes the
    relationships with that id and nothing else: the CIs are untouched,
    [get_relationship] on the id is then a 404, and every relationship with
    another id is still there.  On an id no relationship has it answers 404
    and returns the store it was given. *)
Theorem delete_relationship_removes_that_one_only (d : DB) (rid : Z) :
  sqlite_int rid = true ->
  (In rid (map rel_id (rels d)) ->
   exists d',
     delete_relationship d rid = (d', Json tt 204)
     /\ cis d' = cis d
     /\ get_relationship d' rid = Error (Relationship_not_found rid) 404
     /\ (forall r, In r (rels d') <-> In r (rels d) /\ rel_id r <> rid))
  /\ (~ In rid (map rel_id (rels d)) ->
      delete_relationship d rid = (d, Error (Relationship_not_found rid) 404)).
Proof.
  intros Hrid. unfold delete_relationship. split.
  - intros Hin. destruct (session_get_rel d rid) as [r|] eqn:Hget.
    + apply session_get_rel_Some in Hget as [Hr Hid]. subst rid.
      exists (delete_rel_row d r). repeat split; auto.
      * unfold get_relationship, not_found_reply. rewrite Hrid.
        destruct (session_get_rel (delete_rel_row d r) (rel_id r)) as [r'|] eqn:Hg;
          [|reflexivity].
        apply session_get_rel_Some in Hg as [Hr' Hsame]. simpl in Hr'.
        apply filter_In in Hr' as [_ Hr'].
        apply negb_true_iff, Z.eqb_neq in Hr'. contradiction.
      * simpl in H. apply filter_In in H. tauto.
      * simpl in H. apply filter_In in H as [_ H].
        now apply negb_true_iff, Z.eqb_neq in H.
      * intros [Hr' Hne]. simpl. apply filter_In. split; [assumption|].
        now apply negb_true_iff, Z.eqb_neq.
    + exfalso. apply in_map_iff in Hin as (r & Hid & Hr).
      apply (find_none _ _ Hget) in Hr. simpl in Hr. lia.
  - intros Hnot. destruct (session_get_rel d rid) as [r|] eqn:Hget.
    + exfalso. apply session_get_rel_Some in Hget as [Hr Hid]. apply Hnot.
      rewrite <- Hid. now apply in_map.
    + unfold not_found_reply. now rewrite Hrid.
Qed.

Lemma delete_relationship_removes_that_one_only_witness :
  exists d',
    delete_relationship seeded 3 = (d', Json tt 204)
    /\ cis d' = cis seeded
    /\ get_relationship d' 3 = Error (Relationship_not_found 3) 404
    /\ (forall r, In r (rels d') <-> In r (rels seeded) /\ rel_id r <> 3).
Proof.
  apply (delete_relationship_removes_that_one_only seeded 3).
  - reflexivity.
  - vm_compute. tauto.
Defined.

(** X9.  Creating a relationship and then deleting it by the id of the reply
    gives back the store exactly as it was before the two requests. *)
Theorem create_then_delete_relationship_restores_the_store
  (d : DB) (s t : Z) (ty : string) :
  In s (map ci_id (cis d)) -> In t (map ci_id (cis d)) ->
  s <> t -> In ty ALLOWED_RELATIONSHIP_TYPES ->
  exists d' body,
    create_relationship d (rel_request s t ty) = (d', Json body 201)
    /\ delete_relationship d' (d_id body) = (d, Json tt 204).
Proof.
  intros Hs Ht Hne Hty.
  destruct (session_get_ci d s) as [cs|] eqn:Hcs;
    [|apply session_get_ci_None in Hcs; contradiction].
  destruct (session_get_ci d t) as [ct|] eqn:Hct;
    [|apply session_get_ci_None in Hct; contradiction].
  eexists. eexists. split; [now apply (create_relationship_done d s t ty cs ct)|].
  set (n := next_rowid (map rel_id (rels d))). simpl d_id.
  assert (Hfresh : forall y, In y (rels d) -> rel_id y <> n).
  { intros y Hy Heq. apply (next_rowid_fresh (map rel_id (rels d))).
    fold n. rewrite <- Heq. now apply in_map. }
  unfold delete_relationship, session_get_rel. simpl.
  rewrite find_snoc_fresh; [|intros y Hy; now apply Z.eqb_neq, Hfresh
                            |apply Z.eqb_refl].
  unfold delete_rel_row. simpl. rewrite filter_snoc_fresh.
  - now rewrite db_eta.
  - intros y Hy. now apply negb_true_iff, Z.eqb_neq, Hfresh.
  - now rewrite Z.eqb_refl.
Qed.

Lemma create_then_delete_relationship_restores_the_store_witness :
  exists d' body,
    create_relationship seeded (rel_request 6 1 "Hosts") = (d', Json body 201)
    /\ delete_relationship d' (d_id body) = (seeded, Json tt 204).
Proof.
  apply (create_then_delete_relationship_restores_the_store seeded 6 1 "Hosts").
  - vm_compute. tauto.
  - vm_compute. tauto.
  - lia.
  - simpl. tauto.
Defined.

(** ** CIs: create, update, delete *)

Lemma create_ci_done (d : DB) (now : Z) (data : ci_payload) (n t s : string) :
  dict_get (p_ci_name data) = Some n -> n <> "" ->
  dict_get (p_ci_type data) = Some t -> t <> "" ->
  dict_get (p_status data) = Some s -> s <> "" ->
  ~ In n (map ci_name (cis d)) ->
  create_ci d now (Some data)
  = (mkDB (cis d ++ [mkCI (next_rowid (map ci_id (cis d))) n t s
                          (dict_get (p_owner data)) (dict_get (p_ip_location data))
                          (dict_get (p_description data)) now])
          (rels d),
     Json (mkCI (next_rowid (map ci_id (cis d))) n t s
                (dict_get (p_owner data)) (dict_get (p_ip_location data))
                (dict_get (p_description data)) now) 201).
Proof.
  intros Hn Hn0 Ht Ht0 Hs Hs0 Hfree.
  unfold create_ci, missing_required. simpl.
  rewrite Hn, Ht, Hs. simpl.
  apply String.eqb_neq in Hn0, Ht0, Hs0. rewrite Hn0, Ht0, Hs0. simpl.
  unfold insert_ci. simpl.
  apply existsb_name_false in Hfree. now rewrite Hfree.
Qed.

(** X10.  In a reachable store, creating a CI and then deleting it by the id
    of the reply gives back the store exactly as it was: the cascade finds no
    relationship to remove, since none can point at an id that was not in
    use. *)
Theorem create_then_delete_ci_restores_the_store
  (d : DB) (now : Z) (data : ci_payload) (n t s : string) :
  reachable d ->
  dict_get (p_ci_name data) = Some n -> n <> "" ->
  dict_get (p_ci_type data) = Some t -> t <> "" ->
  dict_get (p_status data) = Some s -> s <> "" ->
  ~ In n (map ci_name (cis d)) ->
  exists d' row,
    create_ci d now (Some data) = (d', Json row 201)
    /\ delete_ci d' (ci_id row) = (d, Json tt 204).
Proof.
  intros Hreach Hn Hn0 Ht Ht0 Hs Hs0 Hfree.
  pose proof (reachable_ok d Hreach) as [_ _ _ Hed].
  eexists. eexists.
  split; [now apply (create_ci_done d now data n t s)|].
  set (i := next_rowid (map ci_id (cis d))). simpl ci_id.
  assert (Hfresh : ~ In i (map ci_id (cis d))) by apply next_rowid_fresh.
  unfold delete_ci, session_get_ci. simpl.
  rewrite find_snoc_fresh; [| |apply Z.eqb_refl].
  - unfold delete_ci_row. simpl. fold i. rewrite filter_snoc_fresh.
    + rewrite filter_all; [now rewrite db_eta|].
      intros r Hr. rewrite Forall_forall in Hed.
      destruct (Hed r Hr) as (_ & Hsrc & Htgt & _).
      apply negb_true_iff. unfold touches. apply orb_false_iff.
      split; apply Z.eqb_neq; intros Heq; apply Hfresh; now rewrite <- Heq.
    + intros y Hy. apply negb_true_iff, Z.eqb_neq. intros Heq. apply Hfresh.
      rewrite <- Heq. now apply in_map.
    + now rewrite Z.eqb_refl.
  - intros y Hy. apply Z.eqb_neq. intros Heq. apply Hfresh.
    rewrite <- Heq. now apply in_map.
Qed.

Lemma create_then_delete_ci_restores_the_store_witness :
  exists d' row,
    create_ci seeded 5 (ci_request "Cache-01" "Server") = (d', Json row 201)
    /\ delete_ci d' (ci_id row) = (seeded, Json tt 204).
Proof.
  apply (create_then_delete_ci_restores_the_store seeded 5
           (mkPayload (Some (Some "Cache-01")) (Some (Some "Server"))
                      (Some (Some "Active")) None None None)
           "Cache-01" "Server" "Active").
  - apply reachable_run. constructor.
  - reflexivity.
  - discriminate.
  - reflexivity.
  - discriminate.
  - reflexivity.
  - discriminate.
  - vm_compute. intuition discriminate.
Defined.

Lemma opt_eqb_eq (a b : option string) : opt_eqb a b = true <-> a = b.
Proof.
  destruct a as [x|], b as [y|]; simpl; try (split; congruence).
  rewrite String.eqb_eq. split; congruence.
Qed.

Lemma attrs_eqb_eq (a b : ci_attrs) : attrs_eqb a b = true <-> a = b.
Proof.
  unfold attrs_eqb. rewrite !andb_true_iff, !opt_eqb_eq.
  destruct a, b; simpl. split.
  - intros [[[[[-> ->] ->] ->] ->] ->]. reflexivity.
  - intros [= -> -> -> -> -> ->]. tauto.
Qed.

Lemma replace_row_hit (row c : ConfigurationItem) :
  ci_id c = ci_id row -> replace_row row c = row.
Proof. unfold replace_row. intros ->. now rewrite Z.eqb_refl. Qed.

Lemma replace_row_miss (row c : ConfigurationItem) :
  ci_id c <> ci_id row -> replace_row row c = c.
Proof. unfold replace_row. intros H. apply Z.eqb_neq in H. now rewrite H. Qed.

Lemma find_replace_row_same (row : ConfigurationItem) (l : list ConfigurationItem)
      (old : ConfigurationItem) :
  find (fun c => Z.eqb (ci_id c) (ci_id row)) l = Some old ->
  find (fun c => Z.eqb (ci_id c) (ci_id row)) (map (replace_row row) l) = Some row.
Proof.
  induction l as [|c l IH]; simpl; [discriminate|].
  destruct (Z.eqb_spec (ci_id c) (ci_id row)) as [Heq|Hne].
  - intros _. rewrite (replace_row_hit row c Heq). now rewrite Z.eqb_refl.
  - rewrite (replace_row_miss row c Hne). apply Z.eqb_neq in Hne.
    rewrite Hne. exact IH.
Qed.

Lemma find_replace_row_other (row : ConfigurationItem) (l : list ConfigurationItem)
      (y : Z) :
  y <> ci_id row ->
  find (fun c => Z.eqb (ci_id c) y) (map (replace_row row) l)
  = find (fun c => Z.eqb (ci_id c) y) l.
Proof.
  intros Hy. induction l as [|c l IH]; simpl; [reflexivity|].
  destruct (Z.eq_dec (ci_id c) (ci_id row)) as [Heq|Hne].
  - rewrite (replace_row_hit row c Heq).
    destruct (Z.eqb_spec (ci_id row) y) as [|_]; [congruence|].
    destruct (Z.eqb_spec (ci_id c) y) as [|_]; [congruence|]. exact IH.
  - rewrite (replace_row_miss row c Hne). now rewrite IH.
Qed.

(** What [update_ci] does once the look-up, the name check and the
    constraints all pass. *)
Lemma update_ci_done
  (d : DB) (now cid : Z) (data : ci_payload) (old : ConfigurationItem)
  (n t s : string) :
  reachable d ->
  session_get_ci d cid = Some old ->
  assign_if_present (p_ci_name data) (Some (ci_name old)) = Some n ->
  assign_if_present (p_ci_type data) (Some (ci_type old)) = Some t ->
  assign_if_present (p_status data) (Some (status old)) = Some s ->
  n = ci_name old \/ ~ In n (map ci_name (cis d)) ->
  let a' := mkAttrs (Some n) (Some t) (Some s)
                    (assign_if_present (p_owner data) (owner old))
                    (assign_if_present (p_ip_location data) (ip_location old))
                    (assign_if_present (p_description data) (description old)) in
  let row := mkCI cid n t s (a_owner a') (a_ip_location a') (a_description a') now in
  update_ci d now cid (Some data)
  = if attrs_eqb a' (attrs_of old) then (d, Json old 200)
    else (mkDB (map (replace_row row) (cis d)) (rels d), Json row 200).
Proof.
  intros Hreach Hold Hn Ht Hs Hfree a' row.
  pose proof (reachable_ok d Hreach) as [_ Hnm _ _].
  pose proof (session_get_ci_Some _ _ _ Hold) as [Hin Hid].
  assert (Hothers : existsb (fun c => negb (Z.eqb (ci_id c) (ci_id old))
                                      && String.eqb (ci_name c) n)%bool (cis d)
                    = false).
  { destruct (existsb _ _) eqn:Hex; [|reflexivity]. exfalso.
    apply existsb_exists in Hex as (c & Hc & Hb).
    apply andb_true_iff in Hb as [Hne Heq].
    apply negb_true_iff, Z.eqb_neq in Hne. apply String.eqb_eq in Heq.
    destruct Hfree as [->|Hfree].
    - apply Hne. f_equal. eapply NoDup_map_In_eq; eassumption.
    - apply Hfree. rewrite <- Heq. now apply in_map. }
  unfold update_ci. rewrite Hold.
  assert (Hclash :
            match p_ci_name data with
            | Some v =>
                if opt_eqb v (Some (ci_name old)) then false
                else match first_by_name d v with
                     | Some _ => true
                     | None => false
                     end
            | None => false
            end = false).
  { destruct (p_ci_name data) as [v|]; [|reflexivity]. simpl in Hn. subst v.
    simpl opt_eqb. destruct (String.eqb_spec n (ci_name old)) as [|Hne];
      [reflexivity|].
    destruct Hfree as [|Hfree]; [contradiction|]. simpl.
    destruct (find _ _) as [c|] eqn:Hf; [|reflexivity].
    apply find_some in Hf as [Hc Heq]. apply String.eqb_eq in Heq.
    exfalso. apply Hfree. rewrite <- Heq. now apply in_map. }
  rewrite Hclash.
  change (a_ci_name (attrs_of old)) with (Some (ci_name old)).
  change (a_ci_type (attrs_of old)) with (Some (ci_type old)).
  change (a_status (attrs_of old)) with (Some (status old)).
  change (a_owner (attrs_of old)) with (owner old).
  change (a_ip_location (attrs_of old)) with (ip_location old).
  change (a_description (attrs_of old)) with (description old).
  rewrite Hn, Ht, Hs. unfold update_ci_row. subst a' row.
  destruct (attrs_eqb _ (attrs_of old)); [reflexivity|].
  cbn [a_ci_name a_ci_type a_status a_owner a_ip_location a_description].
  rewrite Hothers, Hid. reflexivity.
Qed.

(** X11.  In a reachable store, a PUT for a CI [old] that leaves the name as
    it is or gives a name no CI holds, and sends no [null] for name, type or
    status, answers 200 with a row that has the id of [old], each sent field
    at its sent value and every other field at the value it had.  The
    relationships, the ids of the store and every other CI are as before, and
    [get_ci] on the id returns the row of the reply.  When no value differs
    from the stored one the store is not written at all and [last_updated]
    stays; otherwise [last_updated] becomes the clock reading. *)
Theorem update_ci_changes_only_what_is_sent
  (d : DB) (now cid : Z) (data : ci_payload) (old : ConfigurationItem)
  (n t s : string) :
  reachable d ->
  session_get_ci d cid = Some old ->
  assign_if_present (p_ci_name data) (Some (ci_name old)) = Some n ->
  assign_if_present (p_ci_type data) (Some (ci_type old)) = Some t ->
  assign_if_present (p_status data) (Some (status old)) = Some s ->
  n = ci_name old \/ ~ In n (map ci_name (cis d)) ->
  let sent := mkAttrs (Some n) (Some t) (Some s)
                (assign_if_present (p_owner data) (owner old))
                (assign_if_present (p_ip_location data) (ip_location old))
                (assign_if_present (p_description data) (description old)) in
  exists d' row,
    update_ci d now cid (Some data) = (d', Json row 200)
    /\ ci_id row = cid
    /\ attrs_of row = sent
    /\ (sent = attrs_of old -> row = old /\ d' = d)
    /\ (sent <> attrs_of old -> last_updated row = now)
    /\ rels d' = rels d
    /\ map ci_id (cis d') = map ci_id (cis d)
    /\ get_ci d' cid = Json row 200
    /\ (forall y, y <> cid -> get_ci d' y = get_ci d y).
Proof.
  intros Hreach Hold Hn Ht Hs Hfree sent.
  pose proof (update_ci_done d now cid data old n t s Hreach Hold Hn Ht Hs Hfree)
    as Hdone. cbv zeta in Hdone. fold sent in Hdone.
  pose proof (session_get_ci_Some _ _ _ Hold) as [Hin Hid].
  destruct (attrs_eqb sent (attrs_of old)) eqn:Heqb.
  - apply attrs_eqb_eq in Heqb. exists d, old. repeat split; auto.
    + congruence.
    + unfold get_ci. now rewrite Hold.
  - assert (Hdiff : sent <> attrs_of old).
    { intros Heq. apply attrs_eqb_eq in Heq. congruence. }
    eexists. eexists. split; [exact Hdone|].
    split; [reflexivity|]. split; [reflexivity|].
    split; [intros Heq; contradiction|]. split; [reflexivity|].
    split; [reflexivity|]. split; [|split].
    + simpl. apply replace_row_ids.
    + unfold get_ci, session_get_ci. simpl.
      match goal with |- context [map (replace_row ?r) _] => set (row := r) end.
      change cid with (ci_id row) at 1.
      rewrite (find_replace_row_same row (cis d) old); [reflexivity|].
      simpl. exact Hold.
    + intros y Hy. unfold get_ci, session_get_ci. simpl.
      rewrite find_replace_row_other; [reflexivity|]. simpl. exact Hy.
Qed.

Lemma update_ci_changes_only_what_is_sent_witness :
  let old := mkCI 1 "A" "Server" "Active" None None None 10 in
  let data := mkPayload None None (Some (Some "Retired")) (Some (Some "Ops"))
                        None None in
  let sent := mkAttrs (Some "A") (Some "Server") (Some "Retired") (Some "Ops")
                      None None in
  exists d' row,
    update_ci A_depends_on_B 20 1 (Some data) = (d', Json row 200)
    /\ ci_id row = 1
    /\ attrs_of row = sent
    /\ (sent = attrs_of old -> row = old /\ d' = A_depends_on_B)
    /\ (sent <> attrs_of old -> last_updated row = 20)
    /\ rels d' = rels A_depends_on_B
    /\ map ci_id (cis d') = map ci_id (cis A_depends_on_B)
    /\ get_ci d' 1 = Json row 200
    /\ (forall y, y <> 1 -> get_ci d' y = get_ci A_depends_on_B y).
Proof.
  intros old data sent.
  apply (update_ci_changes_only_what_is_sent A_depends_on_B 20 1 data old
           "A" "Server" "Retired").
  - exact A_depends_on_B_reachable.
  - reflexivity.
  - reflexivity.
  - reflexivity.
  - reflexivity.
  - left. reflexivity.
Defined.

(** X12.  A PUT that sends [null] for the name, the type or the status of an
    existing CI is refused by the NOT NULL constraint at commit: the reply is
    the 400 "Update failed due to a naming conflict", whatever the field was,
    and the store is returned as it was.  (A name sent along is taken to be
    the CI's own or not in use, so that the name check passes.) *)
Theorem update_ci_refuses_null_for_a_required_field
  (d : DB) (now cid : Z) (data : ci_payload) (old : ConfigurationItem) :
  session_get_ci d cid = Some old ->
  (forall v, p_ci_name data = Some (Some v) ->
             v = ci_name old \/ ~ In v (map ci_name (cis d))) ->
  p_ci_name data = Some None \/ p_ci_type data = Some None
  \/ p_status data = Some None ->
  update_ci d now cid (Some data)
  = (d, Error (Update_naming_conflict (dict_get (p_ci_name data))) 400).
Proof.
  intros Hold Hname Hnull. unfold update_ci. rewrite Hold.
  assert (Hclash :
            match p_ci_name data with
            | Some v =>
                if opt_eqb v (Some (ci_name old)) then false
                else match first_by_name d v with
                     | Some _ => true
                     | None => false
                     end
            | None => false
            end = false).
  { destruct (p_ci_name data) as [[v|]|]; try reflexivity.
    simpl opt_eqb. destruct (String.eqb_spec v (ci_name old)) as [|Hne];
      [reflexivity|].
    destruct (Hname v eq_refl) as [|Hfree]; [contradiction|]. simpl.
    destruct (find _ _) as [c|] eqn:Hf; [|reflexivity].
    apply find_some in Hf as [Hc Heq]. apply String.eqb_eq in Heq.
    exfalso. apply Hfree. rewrite <- Heq. now apply in_map. }
  rewrite Hclash. unfold update_ci_row.
  match goal with |- context [attrs_eqb ?a (attrs_of old)] => set (a' := a) end.
  assert (Hdiff : attrs_eqb a' (attrs_of old) = false).
  { destruct (attrs_eqb a' (attrs_of old)) eqn:He; [|reflexivity].
    apply attrs_eqb_eq in He. exfalso.
    assert (H1 : a_ci_name a' = Some (ci_name old)) by now rewrite He.
    assert (H2 : a_ci_type a' = Some (ci_type old)) by now rewrite He.
    assert (H3 : a_status a' = Some (status old)) by now rewrite He.
    subst a'. simpl in H1, H2, H3.
    destruct Hnull as [Hn|[Hn|Hn]]; rewrite Hn in *; discriminate. }
  rewrite Hdiff.
  assert (Hnone : a_ci_name a' = None \/ a_ci_type a' = None \/ a_status a' = None).
  { subst a'. simpl. destruct Hnull as [Hn|[Hn|Hn]]; rewrite Hn; auto. }
  destruct (a_ci_name a') as [n|]; [|reflexivity].
  destruct (a_ci_type a') as [t|]; [|reflexivity].
  destruct (a_status a') as [s|]; [|reflexivity].
  destruct Hnone as [H|[H|H]]; discriminate.
Qed.

Lemma update_ci_refuses_null_for_a_required_field_witness :
  update_ci A_depends_on_B 20 1
    (Some (mkPayload None (Some None) None (Some (Some "Ops")) None None))
  = (A_depends_on_B, Error (Update_naming_conflict None) 400).
Proof.
  apply (update_ci_refuses_null_for_a_required_field A_depends_on_B 20 1
           (mkPayload None (Some None) None (Some (Some "Ops")) None None)
           (mkCI 1 "A" "Server" "Active" None None None 10)).
  - reflexivity.
  - intros v [=].
  - right. left. reflexivity.
Defined.

Lemma missing_required_In (n t s : jfield) (k : string) :
  In k (missing_required [("ci_name", n); ("ci_type", t); ("status", s)]) <->
  (k = "ci_name" /\ truthy (dict_get n) = false)
  \/ (k = "ci_type" /\ truthy (dict_get t) = false)
  \/ (k = "status" /\ truthy (dict_get s) = false).
Proof.
  unfold missing_required. simpl.
  destruct (truthy (dict_get n)), (truthy (dict_get t)), (truthy (dict_get s));
    simpl; intuition (try discriminate; auto).
Qed.

(** X13.  [create_ci] checks the fields of the body before it touches the
    store.  The fields reported missing are exactly those of name, type and
    status that are absent, [null] or the empty string, in that order, and if
    there is one the reply is the 400 that lists them and the store is
    returned as it was.  So whenever [create_ci] answers 201, the row it
    stored has a non-empty name, type and status. *)
Theorem create_ci_reports_the_missing_fields
  (d : DB) (now : Z) (data : ci_payload) :
  let missing := missing_required [("ci_name", p_ci_name data);
                                   ("ci_type", p_ci_type data);
                                   ("status", p_status data)] in
  (forall k, In k missing <->
     (k = "ci_name" /\ truthy (dict_get (p_ci_name data)) = false)
     \/ (k = "ci_type" /\ truthy (dict_get (p_ci_type data)) = false)
     \/ (k = "status" /\ truthy (dict_get (p_status data)) = false))
  /\ (missing <> [] ->
      create_ci d now (Some data) = (d, Error (Missing_required_fields missing) 400))
  /\ (forall d' row,
        create_ci d now (Some data) = (d', Json row 201) ->
        ci_name row <> "" /\ ci_type row <> "" /\ status row <> "").
Proof.
  intros missing. subst missing.
  split; [apply missing_required_In|].
  split.
  - intros Hne. unfold create_ci.
    destruct (missing_required _); [contradiction | reflexivity].
  - intros d' row. unfold create_ci.
    pose proof (missing_required_In (p_ci_name data) (p_ci_type data)
                  (p_status data)) as Hin.
    destruct (missing_required _) as [|k ks]; [|discriminate].
    assert (Hn : truthy (dict_get (p_ci_name data)) = true).
    { destruct (truthy _) eqn:H; [reflexivity|].
      destruct (proj2 (Hin "ci_name")); auto. }
    assert (Ht : truthy (dict_get (p_ci_type data)) = true).
    { destruct (truthy (dict_get (p_ci_type data))) eqn:H; [reflexivity|].
      destruct (proj2 (Hin "ci_type")); auto. }
    assert (Hs : truthy (dict_get (p_status data)) = true).
    { destruct (truthy (dict_get (p_status data))) eqn:H; [reflexivity|].
      destruct (proj2 (Hin "status")); auto. }
    apply truthy_Some in Hn as (n & Hn & Hn0), Ht as (t & Ht & Ht0),
                          Hs as (s & Hs & Hs0).
    unfold insert_ci. simpl. rewrite Hn, Ht, Hs.
    destruct (existsb _ _); [discriminate|]. intros [= _ <-]. simpl. auto.
Qed.

(** X14.  The empty string passes [update_ci] where it does not pass the
    other ways in: in a reachable store, a PUT that sends [""] as the type of
    an existing CI answers 200 and the CI then has the empty type, while
    [create_ci] with an empty type answers 400 naming [ci_type] among the
    missing fields, and the edit form with an empty type answers "required
    fields", both leaving the store as it was. *)
Theorem update_ci_alone_accepts_an_empty_type
  (d : DB) (now cid : Z) (old : ConfigurationItem) :
  reachable d ->
  session_get_ci d cid = Some old ->
  (exists d' row,
     update_ci d now cid
       (Some (mkPayload None (Some (Some "")) None None None None))
     = (d', Json row 200)
     /\ ci_type row = ""
     /\ get_ci d' cid = Json row 200)
  /\ (forall data, dict_get (p_ci_type data) = Some "" ->
        exists missing,
          create_ci d now (Some data)
          = (d, Error (Missing_required_fields missing) 400)
          /\ In "ci_type" missing)
  /\ (forall f, f_ci_type f = Some "" ->
        edit_ci_ui d now cid f = (d, Required_fields)).
Proof.
  intros Hreach Hold. split; [|split].
  - pose proof (update_ci_done d now cid
                  (mkPayload None (Some (Some "")) None None None None) old
                  (ci_name old) "" (status old) Hreach Hold
                  eq_refl eq_refl eq_refl (or_introl eq_refl)) as Hdone.
    cbv zeta in Hdone. simpl in Hdone.
    pose proof (session_get_ci_Some _ _ _ Hold) as [Hin Hid].
    match type of Hdone with
    | _ = if ?b then _ else _ => destruct b eqn:Heqb
    end.
    + apply attrs_eqb_eq in Heqb. injection Heqb as Hty.
      exists d, old. split; [exact Hdone|]. split; [now rewrite <- Hty|].
      unfold get_ci. now rewrite Hold.
    + eexists. eexists. split; [exact Hdone|]. split; [reflexivity|].
      unfold get_ci, session_get_ci. simpl.
      match goal with |- context [map (replace_row ?r) _] => set (row := r) end.
      change cid with (ci_id row) at 1.
      rewrite (find_replace_row_same row (cis d) old); [reflexivity|].
      simpl. exact Hold.
  - intros data Hty. unfold create_ci.
    pose proof (missing_required_In (p_ci_name data) (p_ci_type data)
                  (p_status data) "ci_type") as Hin.
    assert (Hm : In "ci_type"
                    (missing_required [("ci_name", p_ci_name data);
                                       ("ci_type", p_ci_type data);
                                       ("status", p_status data)])).
    { apply Hin. right. left. split; [reflexivity|]. now rewrite Hty. }
    destruct (missing_required _) as [|k ks]; [contradiction|].
    eexists. split; [reflexivity | exact Hm].
  - intros f Hty. unfold edit_ci_ui. rewrite Hold.
    unfold required_given. rewrite Hty. simpl.
    rewrite andb_false_r. simpl. now destruct (f_ci_name f).
Qed.

Lemma update_ci_alone_accepts_an_empty_type_witness :
  exists d' row,
    update_ci A_depends_on_B 20 2
      (Some (mkPayload None (Some (Some "")) None None None None))
    = (d', Json row 200)
    /\ ci_type row = ""
    /\ get_ci d' 2 = Json row 200.
Proof.
  apply (update_ci_alone_accepts_an_empty_type A_depends_on_B 20 2
           (mkCI 2 "B" "Database" "Active" None None None 11)).
  - exact A_depends_on_B_reachable.
  - reflexivity.
Defined.

(** ** The two listings *)










(** ** The command line *)

Lemma add_all_rels_adds (objs : list (Z * Z * string)) (d : DB) :
  Forall (fun o => fst (fst o) <> snd (fst o)) objs ->
  exists d',
    add_all_rels d objs = inr d'
    /\ cis d' = cis d
    /\ List.length (rels d') = (List.length (rels d) + List.length objs)%nat.
Proof.
  revert d. induction objs as [|[[s t] ty] objs IH]; intros d Hobjs.
  - exists d. simpl. repeat split. lia.
  - inversion Hobjs as [|? ? Hst Hrest]; subst. simpl in Hst.
    simpl. unfold insert_rel. apply Z.eqb_neq in Hst. rewrite Hst.
    destruct (IH (mkDB (cis d)
                       (rels d ++ [mkRel (next_rowid (map rel_id (rels d))) s t ty]))
                 Hrest) as (d' & Heq & Hc & Hl).
    exists d'. split; [exact Heq|]. split; [exact Hc|].
    rewrite Hl. simpl. rewrite length_app. simpl. lia.
Qed.

Lemma seed_db_command_on_no_ci (rs : list Relationship) (now : Z) :
  exists d2,
    seed_db_command (mkDB [] rs) now = d2
    /\ map (fun c => (ci_id c, ci_name c)) (cis d2)
       = [(1, "WebServer-Prod-01"); (2, "AppServer-Prod-01");
          (3, "CustomerDB-Prod-01"); (4, "BillingApp-Prod");
          (5, "MainWebsite-Prod"); (6, "OfficeRouter-HQ");
          (7, "AuthService-Prod")]
    /\ List.length (rels d2) = (List.length rs + 6)%nat.
Proof.
  destruct (add_all_cis (mkDB [] rs) now sample_cis) as [e|[d1 rows]] eqn:H1;
    [vm_compute in H1; discriminate|].
  vm_compute in H1. injection H1 as Hd1 Hrows.
  unfold seed_db_command. cbn [cis].
  assert (H1 : add_all_cis (mkDB [] rs) now sample_cis = inr (d1, rows))
    by (subst d1 rows; vm_compute; reflexivity).
  rewrite H1. subst rows. cbn [ci_id].
  destruct (add_all_rels_adds
              [(4, 2, "Runs on"); (4, 3, "Depends on"); (5, 1, "Runs on");
               (2, 7, "Depends on"); (1, 6, "Connected to");
               (7, 3, "Depends on")] d1) as (d2 & H2 & Hc & Hl).
  { repeat (constructor; [simpl; lia|]). constructor. }
  rewrite H2. exists d2. split; [reflexivity|]. rewrite Hc, Hl. subst d1.
  split; reflexivity.
Qed.

(** X17.  [seed-db] only ever fills a store that has no CI: a store with a CI
    in it is left exactly as it is, and a store without one receives the
    seven sample CIs under the ids 1 to 7 and six more relationships.  So
    seeding twice is seeding once. *)
Theorem seed_db_fills_only_an_empty_store (d : DB) (now now' : Z) :
  (cis d <> [] -> seed_db_command d now = d)
  /\ (cis d = [] ->
      map ci_id (cis (seed_db_command d now)) = [1; 2; 3; 4; 5; 6; 7]
      /\ map ci_name (cis (seed_db_command d now))
         = ["WebServer-Prod-01"; "AppServer-Prod-01"; "CustomerDB-Prod-01";
            "BillingApp-Prod"; "MainWebsite-Prod"; "OfficeRouter-HQ";
            "AuthService-Prod"]
      /\ List.length (rels (seed_db_command d now))
         = (List.length (rels d) + 6)%nat)
  /\ seed_db_command (seed_db_command d now) now' = seed_db_command d now.
Proof.
  destruct d as [cs rs]. destruct cs as [|c cs].
  - destruct (seed_db_command_on_no_ci rs now) as (d2 & Heq & Hcis & Hlen).
    rewrite Heq.
    assert (Hids : map ci_id (cis d2) = [1; 2; 3; 4; 5; 6; 7]).
    { pose proof (f_equal (map fst) Hcis) as H. rewrite map_map in H.
      exact H. }
    split; [intros H; now destruct H|]. split.
    + intros _. split; [exact Hids|]. split; [|exact Hlen].
      pose proof (f_equal (map snd) Hcis) as H. rewrite map_map in H.
      exact H.
    + unfold seed_db_command at 1. destruct (cis d2); [discriminate|reflexivity].
  - simpl. split; [reflexivity|]. split; [discriminate|reflexivity].
Qed.

(** ** The CI pages and the API *)

Lemma filter_or_Permutation {A : Type} (p q : A -> bool) (l : list A) :
  (forall x, In x l -> p x = true -> q x = false) ->
  Permutation (filter (fun x => p x || q x)%bool l) (filter p l ++ filter q l).
Proof.
  induction l as [|x l IH]; simpl; intros Hdis; [constructor|].
  assert (IH' := IH (fun y Hy => Hdis y (or_intror Hy))).
  destruct (p x) eqn:Hp; simpl.
  - rewrite (Hdis x (or_introl eq_refl) Hp). now constructor.
  - destruct (q x); [|exact IH']. now apply Permutation_cons_app.
Qed.

(** X18.  In a reachable store, for a CI of the store, the page of the CI
    shows the CI that [get_ci] returns, as outbound relationships those that
    direction ["source"] lists and as inbound ones those that ["target"]
    lists.  No relationship is on both lists, and the two together are what
    direction ["all"] lists, each relationship once. *)
Theorem view_ci_ui_splits_the_relationships (d : DB) (cid : Z) :
  reachable d ->
  In cid (map ci_id (cis d)) ->
  exists ci outs ins all,
    view_ci_ui d cid = Some (ci, outs, ins)
    /\ get_ci d cid = Json ci 200
    /\ get_relationships_for_ci d cid (Some "source")
       = Json (map (relationship_to_dict d) outs) 200
    /\ get_relationships_for_ci d cid (Some "target")
       = Json (map (relationship_to_dict d) ins) 200
    /\ get_relationships_for_ci d cid (Some "all")
       = Json (map (relationship_to_dict d) all) 200
    /\ Permutation all (outs ++ ins)
    /\ NoDup (outs ++ ins)
    /\ (forall r, In r outs -> ~ In r ins).
Proof.
  intros Hreach Hin. pose proof (reachable_ok d Hreach) as Hok.
  pose proof Hok as [_ _ _ Hed]. rewrite Forall_forall in Hed.
  destruct (session_get_ci d cid) as [ci|] eqn:Hci;
    [|apply session_get_ci_None in Hci; contradiction].
  pose proof (session_get_ci_Some _ _ _ Hci) as [_ Hid].
  assert (Hdis : forall r, In r (rels d) ->
                 Z.eqb (source_ci_id r) cid = true ->
                 Z.eqb (target_ci_id r) cid = false).
  { intros r Hr Hs. apply Z.eqb_eq in Hs. apply Z.eqb_neq.
    destruct (Hed r Hr) as (Hne & _). congruence. }
  pose proof (filter_or_Permutation
                (fun r => Z.eqb (source_ci_id r) cid)
                (fun r => Z.eqb (target_ci_id r) cid) (rels d) Hdis) as Hperm.
  exists ci,
    (filter (fun r => Z.eqb (source_ci_id r) cid) (rels d)),
    (filter (fun r => Z.eqb (target_ci_id r) cid) (rels d)),
    (filter (fun r => (Z.eqb (source_ci_id r) cid
                       || Z.eqb (target_ci_id r) cid)%bool) (rels d)).
  unfold view_ci_ui, get_ci, get_relationships_for_ci. rewrite Hci, Hid.
  repeat split; try reflexivity; try assumption.
  - eapply Permutation_NoDup; [exact Hperm|].
    apply NoDup_filter. now apply rels_NoDup.
  - intros r Ho Hi. apply filter_In in Ho as [Hr Ho], Hi as [_ Hi].
    rewrite (Hdis r Hr Ho) in Hi. discriminate.
Qed.

Lemma view_ci_ui_splits_the_relationships_witness :
  exists ci outs ins all,
    view_ci_ui seeded 3 = Some (ci, outs, ins)
    /\ get_ci seeded 3 = Json ci 200
    /\ get_relationships_for_ci seeded 3 (Some "source")
       = Json (map (relationship_to_dict seeded) outs) 200
    /\ get_relationships_for_ci seeded 3 (Some "target")
       = Json (map (relationship_to_dict seeded) ins) 200
    /\ get_relationships_for_ci seeded 3 (Some "all")
       = Json (map (relationship_to_dict seeded) all) 200
    /\ Permutation all (outs ++ ins)
    /\ NoDup (outs ++ ins)
    /\ (forall r, In r outs -> ~ In r ins).
Proof.
  apply (view_ci_ui_splits_the_relationships seeded 3).
  - apply reachable_run. constructor.
  - vm_compute. tauto.
Defined.

Lemma first_by_name_existsb (d : DB) (n : string) :
  existsb (fun c => String.eqb (ci_name c) n) (cis d)
  = match first_by_name d (Some n) with Some _ => true | None => false end.
Proof.
  simpl. induction (cis d) as [|c l IH]; simpl; [reflexivity|].
  destruct (String.eqb (ci_name c) n); simpl; auto.
Qed.

(** X19.  The forms of the UI change the store exactly as the API requests
    with the same values do.  Deleting a CI through its page leaves the store
    [DELETE /api/ci] leaves, and adding a CI through the form leaves the store
    [POST /api/ci] leaves, in every case, refusals included.  In a reachable
    store, deleting a relationship from the page of a CI at one of its ends
    leaves the store [DELETE /api/relationship] leaves, and from the page of
    any other CI it changes nothing. *)
Theorem ui_forms_change_the_store_as_the_api_does (d : DB) (now : Z) :
  reachable d ->
  (forall cid, fst (delete_ci_ui d cid) = fst (delete_ci d cid))
  /\ (forall p, fst (add_ci_ui d now (form_of_payload p))
                = fst (create_ci d now (Some p)))
  /\ (forall rid cid r,
        session_get_rel d rid = Some r ->
        (source_ci_id r = cid \/ target_ci_id r = cid ->
         fst (delete_relationship_ui d rid cid) = fst (delete_relationship d rid))
        /\ (source_ci_id r <> cid -> target_ci_id r <> cid ->
            delete_relationship_ui d rid cid = (d, Relationship_elsewhere rid cid))).
Proof.
  intros Hreach. split; [|split].
  - intros cid. unfold delete_ci_ui, delete_ci.
    now destruct (session_get_ci d cid).
  - intros p. unfold add_ci_ui, create_ci, missing_required, required_given,
      form_of_payload. cbn [f_ci_name f_ci_type f_status map filter fst snd].
    destruct (dict_get (p_ci_name p)) as [n|] eqn:Hn; [|reflexivity].
    destruct (truthy (Some n)) eqn:Hn1, (truthy (dict_get (p_ci_type p))) eqn:Ht1,
      (truthy (dict_get (p_status p))) eqn:Hs1; simpl; try reflexivity.
    unfold insert_ci, attrs_of_form. simpl.
    apply truthy_Some in Ht1 as (t & Ht & _), Hs1 as (s & Hs & _).
    rewrite Ht, Hs. pose proof (first_by_name_existsb d n) as He.
    simpl in He. rewrite He. now destruct (find _ _).
  - intros rid cid r Hr.
    pose proof (session_get_rel_Some _ _ _ Hr) as [Hin _].
    destruct (relationships_of_store_have_ends d r Hreach Hin) as (cs & ct & Hcs & Hct).
    unfold delete_relationship_ui, delete_relationship. rewrite Hr. split.
    + intros Hend.
      assert (Hguard : (negb (Z.eqb (source_ci_id r) cid)
                        && negb (Z.eqb (target_ci_id r) cid))%bool = false).
      { apply andb_false_iff. destruct Hend as [<-|<-];
          rewrite Z.eqb_refl; auto. }
      now rewrite Hguard, Hcs, Hct.
    + intros Hs Ht. apply Z.eqb_neq in Hs, Ht. now rewrite Hs, Ht.
Qed.

Lemma ui_forms_change_the_store_as_the_api_does_witness :
  (forall cid, fst (delete_ci_ui seeded cid) = fst (delete_ci seeded cid))
  /\ (forall p, fst (add_ci_ui seeded 9 (form_of_payload p))
                = fst (create_ci seeded 9 (Some p)))
  /\ (forall rid cid r,
        session_get_rel seeded rid = Some r ->
        (source_ci_id r = cid \/ target_ci_id r = cid ->
         fst (delete_relationship_ui seeded rid cid)
         = fst (delete_relationship seeded rid))
        /\ (source_ci_id r <> cid -> target_ci_id r <> cid ->
            delete_relationship_ui seeded rid cid
            = (seeded, Relationship_elsewhere rid cid))).
Proof.
  apply (ui_forms_change_the_store_as_the_api_does seeded 9).
  apply reachable_run. constructor.
Defined.

Lemma filter_length_split {A : Type} (p : A -> bool) (l : list A) :
  (List.length (filter p l) + List.length (filter (fun x => negb (p x)) l))%nat
  = List.length l.
Proof.
  induction l as [|x l IH]; simpl; [reflexivity|].
  destruct (p x); simpl; lia.
Qed.

Lemma filter_key_length {A : Type} (key : A -> Z) (l : list A) (x : A) :
  NoDup (map key l) -> In x l ->
  S (List.length (filter (fun y => negb (Z.eqb (key y) (key x))) l))
  = List.length l.
Proof.
  induction l as [|y l IH]; simpl; intros Hnd Hin; [tauto|].
  inversion Hnd as [|? ? Hy Hl]; subst.
  destruct Hin as [->|Hin].
  - rewrite Z.eqb_refl. simpl. f_equal. f_equal. apply filter_all.
    intros z Hz. apply negb_true_iff, Z.eqb_neq. intros Heq. apply Hy.
    rewrite <- Heq. now apply in_map.
  - destruct (Z.eqb_spec (key y) (key x)) as [Heq|_]; simpl.
    + exfalso. apply Hy. rewrite Heq. now apply in_map.
    + f_equal. now apply IH.
Qed.

(** X20.  The two counts of the dashboard follow the requests.  In a
    reachable store: a [create_ci] that answers 201 raises the CI count by one
    and leaves the relationship count; a [create_relationship] that answers
    201 raises the relationship count by one and leaves the CI count; and
    [delete_ci] on the id of a CI lowers the CI count by exactly one and the
    relationship count by the number of relationships that had the CI at an
    end. *)
Theorem ui_index_counts_follow_the_requests (d : DB) :
  reachable d ->
  (forall now data d' row,
     create_ci d now data = (d', Json row 201) ->
     ui_index d' = (fst (ui_index d) + 1, snd (ui_index d)))
  /\ (forall data d' body,
        create_relationship d data = (d', Json body 201) ->
        ui_index d' = (fst (ui_index d), snd (ui_index d) + 1))
  /\ (forall cid,
        In cid (map ci_id (cis d)) ->
        ui_index (fst (delete_ci d cid))
        = (fst (ui_index d) - 1,
           snd (ui_index d)
           - Z.of_nat (List.length (filter (touches cid) (rels d))))).
Proof.
  intros Hreach. pose proof (reachable_ok d Hreach) as [Hpk _ _ _].
  split; [|split].
  - intros now data d' row. unfold create_ci.
    destruct data as [data|]; [|discriminate].
    destruct (missing_required _); [|discriminate].
    unfold insert_ci.
    destruct (a_ci_name _); [|discriminate].
    destruct (a_ci_type _); [|discriminate].
    destruct (a_status _); [|discriminate].
    destruct (existsb _ _); [discriminate|]. intros [= <- _].
    unfold ui_index. simpl. rewrite length_app. simpl. f_equal. lia.
  - intros data d' body. unfold create_relationship.
    destruct data as [data|]; [|discriminate].
    destruct (missing_keys _); [|discriminate].
    destruct (json_get (p_source_ci_id data)) as [|s|]; try discriminate.
    destruct (json_get (p_target_ci_id data)) as [|t|]; try discriminate.
    destruct (Z.eqb s t) eqn:Hst; [discriminate|].
    destruct (allowed_type _) as [ty|]; [|discriminate].
    destruct (session_get_ci d s);
      [|destruct (_ || _)%bool; discriminate].
    destruct (session_get_ci d t);
      [|destruct (_ || _)%bool; discriminate].
    cbn [raised orb]. unfold insert_rel. rewrite Hst. intros [= <- _].
    unfold ui_index. simpl. rewrite length_app. simpl. f_equal. lia.
  - intros cid Hin. unfold delete_ci.
    destruct (session_get_ci d cid) as [c|] eqn:Hc;
      [|apply session_get_ci_None in Hc; contradiction].
    apply session_get_ci_Some in Hc as [Hc Hid]. subst cid.
    unfold ui_index. simpl.
    pose proof (filter_key_length ci_id (cis d) c Hpk Hc) as H1.
    pose proof (filter_length_split (touches (ci_id c)) (rels d)) as H2.
    f_equal; lia.
Qed.

Lemma ui_index_counts_follow_the_requests_witness :
  ui_index seeded = (7, 6)
  /\ ui_index (fst (delete_ci seeded 3))
     = (fst (ui_index seeded) - 1,
        snd (ui_index seeded)
        - Z.of_nat (List.length (filter (touches 3) (rels seeded)))).
Proof.
  split; [reflexivity|].
  apply (ui_index_counts_follow_the_requests seeded).
  - apply reachable_run. constructor.
  - vm_compute. tauto.
Defined.

Lemma name_clash_checks_agree (d : DB) (cid : Z) (old : ConfigurationItem) (n : string) :
  db_ok d -> session_get_ci d cid = Some old -> ci_name old <> n ->
  existsb (fun c => negb (Z.eqb (ci_id c) cid) && String.eqb (ci_name c) n)%bool
          (cis d)
  = match first_by_name d (Some n) with Some _ => true | None => false end.
Proof.
  intros [Hpk _ _ _] Hold Hne.
  pose proof (session_get_ci_Some _ _ _ Hold) as [Hin Hid]. simpl.
  destruct (find _ _) as [c|] eqn:Hf.
  - apply find_some in Hf as [Hc Heq]. apply existsb_exists. exists c.
    split; [assumption|]. rewrite Heq, andb_true_r.
    apply negb_true_iff, Z.eqb_neq. intros Hcid. apply Hne.
    apply String.eqb_eq in Heq. rewrite <- Heq. f_equal.
    eapply NoDup_map_In_eq; try eassumption. congruence.
  - destruct (existsb _ _) eqn:Hex; [|reflexivity].
    apply existsb_exists in Hex as (c & Hc & Hb).
    apply andb_true_iff in Hb as [_ Hb].
    apply (find_none _ _ Hf) in Hc. simpl in Hc. congruence.
Qed.

(** X21.  In a reachable store, the edit form with name, type and status
    filled in leaves the store that a PUT carrying all six fields with the
    same values leaves: the same refusal when another CI has the name, the
    same row otherwise. *)
Theorem edit_form_is_a_put_of_all_six_fields
  (d : DB) (now cid : Z) (n t s : string) (ow ip de : option string) :
  reachable d ->
  n <> "" -> t <> "" -> s <> "" ->
  fst (edit_ci_ui d now cid (mkForm (Some n) (Some t) (Some s) ow ip de))
  = fst (update_ci d now cid
           (Some (mkPayload (Some (Some n)) (Some (Some t)) (Some (Some s))
                            (Some ow) (Some ip) (Some de)))).
Proof.
  intros Hreach Hn Ht Hs. pose proof (reachable_ok d Hreach) as Hok.
  unfold edit_ci_ui, update_ci.
  destruct (session_get_ci d cid) as [old|] eqn:Hold; [|reflexivity].
  cbn [f_ci_name p_ci_name]. unfold required_given.
  cbn [f_ci_name f_ci_type f_status truthy].
  apply String.eqb_neq in Hn, Ht, Hs. rewrite Hn, Ht, Hs.
  cbn [negb andb opt_eqb].
  rewrite (String.eqb_sym n (ci_name old)).
  destruct (String.eqb_spec (ci_name old) n) as [Heq|Hne].
  - unfold attrs_of_form. cbn [assign_if_present f_ci_name f_ci_type f_status
      f_owner f_ip_location f_description p_ci_type p_status p_owner
      p_ip_location p_description].
    now destruct (update_ci_row _ _ _ _) as [e|[d' row]].
  - rewrite (name_clash_checks_agree d cid old n Hok Hold Hne).
    destruct (first_by_name d (Some n)); [reflexivity|].
    unfold attrs_of_form. cbn [assign_if_present f_ci_name f_ci_type f_status
      f_owner f_ip_location f_description p_ci_type p_status p_owner
      p_ip_location p_description].
    now destruct (update_ci_row _ _ _ _) as [e|[d' row]].
Qed.

Lemma edit_form_is_a_put_of_all_six_fields_witness :
  fst (edit_ci_ui seeded 9 2
         (mkForm (Some "AppServer-02") (Some "Server") (Some "Retired")
                 None (Some "10.0.1.12") None))
  = fst (update_ci seeded 9 2
           (Some (mkPayload (Some (Some "AppServer-02")) (Some (Some "Server"))
                            (Some (Some "Retired")) (Some None)
                            (Some (Some "10.0.1.12")) (Some None)))).
Proof.
  apply (edit_form_is_a_put_of_all_six_fields seeded 9 2 "AppServer-02" "Server"
           "Retired" None (Some "10.0.1.12") None).
  - apply reachable_run. constructor.
  - discriminate.
  - discriminate.
  - discriminate.
Defined.
